(** * OMS trading client: state stores, order book view, trade form, analytics

    A shallow embedding of the TypeScript sources of the OMS front end
    (the zustand [useTradingStore], the [OrderBook] and [TradeForm]
    components, the [Dashboard] polling effect and the derived statistics
    of the [Analytics] page), followed by the properties that the design
    document states about them.

    Conventions of the embedding.
    - A JSON number is a finite value; it is a rational [Q] here.  Sums and
      quotients of payload numbers are taken exactly; the fill rate, whose
      printed digit depends on it, is rounded as the IEEE doubles of the
      program are ([Js.round64]).
    - A field that may be missing from a payload ([x?: number], or a field
      the code guards with [?.], [??] or [||]) is an [option].
    - An [await] on the HTTP client is an input of the function: the reply
      is [inl err] (the promise rejected) or [inr data] (it resolved).
    - Effects that leave the component (HTTP calls, [alert], [console.error],
      callbacks to the parent) are returned as a list of [Event]s, oldest
      first. *)

From Stdlib Require Import List String Ascii ZArith QArith Qround Qabs Qpower.
From Stdlib Require Import Lia Lqa Bool Arith DecimalString DecimalN DecimalPos.
Import ListNotations.

Local Open Scope Z_scope.

(* ================================================================== *)
(** ** JavaScript values and built-ins used by the sources *)
(* ================================================================== *)

Module Js.

(** A JavaScript number as the forms can produce it: [parseFloat] may
    answer [NaN] or an infinity, every other number is finite. *)
Inductive JsNumber : Type :=
| NaN
| PosInfinity
| NegInfinity
| Fin (q : Q).

(** [x <= 0] on numbers; every comparison with [NaN] is false. *)
Definition le_zero (x : JsNumber) : bool :=
  match x with
  | NaN => false
  | PosInfinity => false
  | NegInfinity => true
  | Fin q => Qle_bool q 0
  end.

(** Truthiness of a string: only the empty string is falsy. *)
Definition truthy (s : string) : bool :=
  match s with
  | EmptyString => false
  | String _ _ => true
  end.

(** [a || b] on strings that may be absent. *)
Definition or_string (a : option string) (b : string) : string :=
  match a with
  | Some s => if truthy s then s else b
  | None => b
  end.

(** [x || 0] on a number that may be absent: [undefined] and [0] are
    falsy, every other finite number is kept. *)
Definition or_zero (x : option Q) : Q :=
  match x with
  | Some q => if Qeq_bool q 0 then 0%Q else q
  | None => 0%Q
  end.

(** [x ?? 0]: only [null]/[undefined] is replaced. *)
Definition nullish_zero (x : option Q) : Q :=
  match x with
  | Some q => q
  | None => 0%Q
  end.

(** *** [Number.prototype.toFixed]

    For [0 <= |x| < 10^21] the standard takes the integer [n] for which
    [n / 10^f - |x|] is closest to zero (the larger one on a tie), prints
    its decimal digits, pads them on the left with zeros up to [f + 1]
    digits, and puts the point before the last [f] digits; a negative [x]
    gets a leading minus sign.  Larger magnitudes switch to the exponent
    notation of [ToString] and are not covered. *)

Definition pow10 (f : nat) : Z := 10 ^ Z.of_nat f.

Definition toFixed_scaled (f : nat) (x : Q) : Z :=
  Qfloor (Qabs x * inject_Z (pow10 f) + (1 # 2)).

Definition digits (n : Z) : string :=
  NilZero.string_of_uint (N.to_uint (Z.to_N n)).

Fixpoint zeros (k : nat) : string :=
  match k with
  | O => EmptyString
  | S k' => String "0" (zeros k')
  end.

Definition toFixed (f : nat) (x : Q) : string :=
  let m := digits (toFixed_scaled f x) in
  let s := if Qle_bool 0 x then EmptyString else "-"%string in
  let body :=
    match f with
    | O => m
    | S _ =>
        let k := String.length m in
        let m' := if (k <=? f)%nat then append (zeros (f + 1 - k)) m else m in
        let k' := String.length m' in
        append (substring 0 (k' - f) m')
               (append "." (substring (k' - f) f m'))
    end in
  append s body.

(** *** [parseFloat]

    Leading white space is skipped, then the longest prefix that is a
    decimal literal is read: an optional sign, [Infinity], or digits with
    an optional fraction and an optional exponent.  Whatever follows is
    ignored; without such a prefix the answer is [NaN]. *)

Definition is_space (c : ascii) : bool :=
  let n := nat_of_ascii c in
  ((n =? 32) || ((9 <=? n) && (n <=? 13)))%nat.

Definition is_digit (c : ascii) : bool :=
  let n := nat_of_ascii c in ((48 <=? n) && (n <=? 57))%nat.

Definition digit_val (c : ascii) : Z := Z.of_nat (nat_of_ascii c - 48).

Fixpoint skip_spaces (s : list ascii) : list ascii :=
  match s with
  | c :: r => if is_space c then skip_spaces r else s
  | [] => []
  end.

(** Reads a run of digits: the number read so far, how many digits were
    read, and the rest of the input. *)
Fixpoint take_digits (s : list ascii) (acc : Z) (cnt : nat)
  : Z * nat * list ascii :=
  match s with
  | c :: r =>
      if is_digit c then take_digits r (acc * 10 + digit_val c) (S cnt)
      else (acc, cnt, s)
  | [] => (acc, cnt, [])
  end.

Fixpoint starts_with (p s : list ascii) : bool :=
  match p, s with
  | [], _ => true
  | a :: p', b :: s' => Ascii.eqb a b && starts_with p' s'
  | _ :: _, [] => false
  end.

(** The exponent part, [0] when there is none that is well formed. *)
Definition take_exponent (s : list ascii) : Z :=
  match s with
  | c :: r =>
      if Ascii.eqb c "e" || Ascii.eqb c "E" then
        let '(neg, r') :=
          match r with
          | d :: r1 =>
              if Ascii.eqb d "-" then (true, r1)
              else if Ascii.eqb d "+" then (false, r1)
              else (false, r)
          | [] => (false, r)
          end in
        let '(e, cnt, _) := take_digits r' 0 0 in
        match cnt with
        | O => 0
        | S _ => if neg then - e else e
        end
      else 0
  | [] => 0
  end.

Definition parse_unsigned (s : list ascii) : option (bool * Q) :=
  if starts_with (list_ascii_of_string "Infinity") s then Some (true, 0%Q)
  else
    let '(ip, icnt, r) := take_digits s 0 0 in
    let '(fp, fcnt, r') :=
      match r with
      | c :: r1 => if Ascii.eqb c "." then take_digits r1 0 0 else (0, O, r)
      | [] => (0, O, r)
      end in
    match (icnt + fcnt)%nat with
    | O => None
    | S _ =>
        let mant := (inject_Z ip + inject_Z fp / inject_Z (pow10 fcnt))%Q in
        Some (false, (mant * Qpower 10 (take_exponent r'))%Q)
    end.

Definition parseFloat (str : string) : JsNumber :=
  let s := skip_spaces (list_ascii_of_string str) in
  let '(neg, s') :=
    match s with
    | c :: r =>
        if Ascii.eqb c "-" then (true, r)
        else if Ascii.eqb c "+" then (false, r)
        else (false, s)
    | [] => (false, s)
    end in
  match parse_unsigned s' with
  | None => NaN
  | Some (true, _) => if neg then NegInfinity else PosInfinity
  | Some (false, q) => Fin (Qred (if neg then - q else q))
  end.

(** *** Integers as text: [Number.prototype.toString] and [parseInt] *)

(** [!!x] on a number: [0] and [NaN] are falsy. *)
Definition truthy_number (x : JsNumber) : bool :=
  match x with
  | NaN => false
  | Fin q => negb (Qeq_bool q 0)
  | PosInfinity | NegInfinity => true
  end.

(** [z.toString()] for an integer [z]: its decimal digits after a minus
    sign when it is negative.  (Numbers of magnitude [10^21] and more are
    printed with an exponent, which is not covered.) *)
Definition int_toString (z : Z) : string :=
  if z <? 0 then append "-" (digits (- z)) else digits z.

Definition is_hex_digit (c : ascii) : bool :=
  let n := nat_of_ascii c in
  (is_digit c || ((65 <=? n) && (n <=? 70)) || ((97 <=? n) && (n <=? 102)))%nat.

Definition hex_val (c : ascii) : Z :=
  let n := nat_of_ascii c in
  if is_digit c then digit_val c
  else if (n <=? 70)%nat then Z.of_nat (n - 55)
  else Z.of_nat (n - 87).

Fixpoint take_hex_digits (s : list ascii) (acc : Z) (cnt : nat)
  : Z * nat * list ascii :=
  match s with
  | c :: r =>
      if is_hex_digit c then take_hex_digits r (acc * 16 + hex_val c) (S cnt)
      else (acc, cnt, s)
  | [] => (acc, cnt, [])
  end.

(** [parseInt(str)] without a radix: white space is skipped, a sign is
    read, a prefix [0x] or [0X] selects radix 16 and radix 10 is used
    otherwise; the longest run of digits is the value and what follows is
    ignored; without a digit the answer is [NaN]. *)
Definition parseInt (str : string) : JsNumber :=
  let s := skip_spaces (list_ascii_of_string str) in
  let '(neg, s1) :=
    match s with
    | c :: r =>
        if Ascii.eqb c "-" then (true, r)
        else if Ascii.eqb c "+" then (false, r)
        else (false, s)
    | [] => (false, s)
    end in
  let '(hex, s2) :=
    match s1 with
    | a :: b :: r =>
        if Ascii.eqb a "0" && (Ascii.eqb b "x" || Ascii.eqb b "X")
        then (true, r) else (false, s1)
    | _ => (false, s1)
    end in
  let '(v, cnt, _) :=
    if hex then take_hex_digits s2 0 0 else take_digits s2 0 0 in
  match cnt with
  | O => NaN
  | S _ => Fin (inject_Z (if neg then - v else v))
  end.

(** The number a run of decimal digits denotes when read from the left
    after the number [acc]; it says what [take_digits] computes. *)
Fixpoint read_uint (d : Decimal.uint) (acc : Z) : Z :=
  match d with
  | Decimal.Nil => acc
  | Decimal.D0 l => read_uint l (acc * 10 + 0)
  | Decimal.D1 l => read_uint l (acc * 10 + 1)
  | Decimal.D2 l => read_uint l (acc * 10 + 2)
  | Decimal.D3 l => read_uint l (acc * 10 + 3)
  | Decimal.D4 l => read_uint l (acc * 10 + 4)
  | Decimal.D5 l => read_uint l (acc * 10 + 5)
  | Decimal.D6 l => read_uint l (acc * 10 + 6)
  | Decimal.D7 l => read_uint l (acc * 10 + 7)
  | Decimal.D8 l => read_uint l (acc * 10 + 8)
  | Decimal.D9 l => read_uint l (acc * 10 + 9)
  end.

(** *** Rounding to a double

    A JavaScript number is an IEEE-754 binary64 value, and the result of
    an arithmetic operation is the exact result rounded to the nearest
    such value, to the one with the even significand on a tie.  A positive
    [x] with [2^k <= x < 2^(k+1)] lies among the multiples of [2^(k-52)],
    which are the doubles of that range, so it rounds to the nearest
    multiple of [2^(k-52)].  The exponent is left unbounded: the values
    rounded here are quotients of two array lengths and their products with
    100, far from the subnormal numbers and from overflow. *)

Definition pow2 (k : Z) : Q := Qpower 2 k.

(** The [k] with [2^k <= x < 2^(k+1)], for a positive [x]. *)
Definition binade (x : Q) : Z :=
  let k0 := Z.log2 (Qnum x) - Z.log2 (Zpos (Qden x)) in
  if Qle_bool (pow2 k0) x then k0 else k0 - 1.

(** The nearest integer, the even one on a tie. *)
Definition round_half_even (q : Q) : Z :=
  let f := Qfloor q in
  match Qcompare (q - inject_Z f) (1 # 2) with
  | Lt => f
  | Gt => f + 1
  | Eq => if Z.even f then f else f + 1
  end.

Definition round_positive (x : Q) : Q :=
  let e := binade x - 52 in
  (inject_Z (round_half_even (x / pow2 e)) * pow2 e)%Q.

(** The double nearest to [x]. *)
Definition round64 (x : Q) : Q :=
  let y := Qred x in
  match Qcompare y 0 with
  | Eq => 0%Q
  | Gt => Qred (round_positive y)
  | Lt => Qred (- round_positive (- y))
  end.

End Js.

(* ================================================================== *)
(** ** Payloads of the trading API (store/tradingStore.ts) *)
(* ================================================================== *)

Inductive BookSide : Type := BID | ASK.
Inductive TradeSide : Type := BUY | SELL.
Inductive OrderType : Type := MARKET | LIMIT.

Module OrderLevel.
(** [price] and [size] are read through [?.], [??] and [||] by the view,
    so a level of a payload may lack them. *)
Record t : Type := mk {
  side : BookSide;
  price : option Q;
  size : option Q
}.
End OrderLevel.

Module OrderBook.
(** [bids] and [asks] are tested with [!orderBook.bids] by the view: a
    payload may lack them. *)
Record t : Type := mk {
  symbol : string;
  mid : option Q;
  bids : option (list OrderLevel.t);
  asks : option (list OrderLevel.t)
}.
End OrderBook.

Module TradeRequest.
Record t : Type := mk {
  symbol : string;
  side : TradeSide;
  type : OrderType;
  quantity : Js.JsNumber;
  limit_price : option Js.JsNumber
}.
End TradeRequest.

Module OrderResponse.
(** The interface declares every field as present; the reply of
    [POST /trade/] is stored unchecked, so the fields of the execution
    are optional in the value that is really held. *)
Record t : Type := mk {
  order_id : Z;
  symbol : string;
  side : string;
  type : string;
  quantity : Q;
  limit_price : option Q;
  arrival_mid : option Q;
  exec_price : option Q;
  slippage : option Q;
  status : string
}.
End OrderResponse.

Module AnalyticsTrade.
Record t : Type := mk {
  order_id : Z;
  symbol : string;
  side : string;
  type : string;
  quantity : Q;
  limit_price : option Q;
  status : string;
  arrival_mid : option Q;
  created_at : string;
  updated_at : string;
  exec_id : option Z;
  exec_price : option Q;
  exec_qty : option Q;
  slippage_bps : option Q;
  exec_created_at : option string
}.
End AnalyticsTrade.

Record SymbolStats : Type := {
  ss_symbol : string;
  ss_trades : Z;
  total_qty : Q;
  buy_qty : Q;
  sell_qty : Q;
  net_qty : Q;
  avg_exec_price : Q;
  avg_slippage_usd : Q;
  avg_slippage_bps : Q
}.

Record DashboardStats : Type := {
  open_orders : Z;
  portfolio_value : Q
}.

(** What the handlers read of a rejected request [err]:
    [err.response?.data?.message], [err.response?.data] and [err.message]. *)
Record ApiError : Type := {
  response_data_message : option string;
  response_data : option string;
  message : option string
}.

(** The reply of an awaited request. *)
Definition Reply (A : Type) : Type := (ApiError + A)%type.

Inductive Method : Type := HttpGet | HttpPost.

(** Effects that leave the store or a component. *)
Inductive Event : Type :=
| NetCall (m : Method) (path : string) (body : option TradeRequest.t)
| ConsoleError (what : string) (err : ApiError)
| Alert (msg : string)
| OnDataReceived (data : OrderBook.t)
| OnSuccess.

Definition is_NetCall (e : Event) : bool :=
  match e with
  | NetCall _ _ _ => true
  | _ => false
  end.

(** How an async action ends for the caller that awaits it. *)
Inductive Completion : Type :=
| Resolved
| Rejected (err : ApiError).

(* ================================================================== *)
(** ** The zustand store [useTradingStore] *)
(* ================================================================== *)

Module Store.

Record TradingStore : Type := mk {
  orderBook : option OrderBook.t;
  selectedSymbol : option string;
  selectedSide : option TradeSide;
  isLoading : bool;
  error : option string;
  trades : list AnalyticsTrade.t;
  stats : option SymbolStats;
  lastOrder : option OrderResponse.t;
  dashboardStats : option DashboardStats
}.

(** [create(...)]: the initial slots. *)
Definition init : TradingStore :=
  mk None None None false None [] None None None.

(** [set({ isLoading: true, error: null })] *)
Definition set_loading (s : TradingStore) : TradingStore :=
  mk (orderBook s) (selectedSymbol s) (selectedSide s) true None
     (trades s) (stats s) (lastOrder s) (dashboardStats s).

(** [set({ error: errorMsg, isLoading: false })] *)
Definition set_error (msg : string) (s : TradingStore) : TradingStore :=
  mk (orderBook s) (selectedSymbol s) (selectedSide s) false (Some msg)
     (trades s) (stats s) (lastOrder s) (dashboardStats s).

(** [set({ orderBook: data, isLoading: false })] *)
Definition set_orderBook (data : OrderBook.t) (s : TradingStore)
  : TradingStore :=
  mk (Some data) (selectedSymbol s) (selectedSide s) false (error s)
     (trades s) (stats s) (lastOrder s) (dashboardStats s).

(** [set({ lastOrder: data, isLoading: false })] *)
Definition set_lastOrder (data : OrderResponse.t) (s : TradingStore)
  : TradingStore :=
  mk (orderBook s) (selectedSymbol s) (selectedSide s) false (error s)
     (trades s) (stats s) (Some data) (dashboardStats s).

(** [set({ trades: data, isLoading: false })] *)
Definition set_trades (data : list AnalyticsTrade.t) (s : TradingStore)
  : TradingStore :=
  mk (orderBook s) (selectedSymbol s) (selectedSide s) false (error s)
     data (stats s) (lastOrder s) (dashboardStats s).

(** [set({ dashboardStats: data })] *)
Definition set_dashboardStats (data : DashboardStats) (s : TradingStore)
  : TradingStore :=
  mk (orderBook s) (selectedSymbol s) (selectedSide s) (isLoading s)
     (error s) (trades s) (stats s) (lastOrder s) (Some data).

(** The result of an action: how it completes, the store it leaves, and
    the effects it had. *)
Record Run : Type := run {
  completion : Completion;
  after : TradingStore;
  events : list Event
}.

(** [fetchOrderBook(symbol)]: the failure is stored, not rethrown. *)
Definition fetchOrderBook (symbol : string) (reply : Reply OrderBook.t)
  (s : TradingStore) : Run :=
  let s1 := set_loading s in
  let call := NetCall HttpGet (append "/orderbook/" symbol) None in
  match reply with
  | inr data => run Resolved (set_orderBook data s1) [call]
  | inl err =>
      let errorMsg :=
        Js.or_string (response_data_message err) "Failed to fetch order book" in
      run Resolved (set_error errorMsg s1) [call]
  end.

(** [submitTrade(trade)]: the failure is stored and rethrown. *)
Definition submitTrade (trade : TradeRequest.t)
  (reply : Reply OrderResponse.t) (s : TradingStore) : Run :=
  let s1 := set_loading s in
  let call := NetCall HttpPost "/trade/" (Some trade) in
  match reply with
  | inr data => run Resolved (set_lastOrder data s1) [call]
  | inl err =>
      let errorMsg :=
        Js.or_string (response_data err)
          (Js.or_string (message err) "Trade submission failed") in
      run (Rejected err) (set_error errorMsg s1) [call]
  end.

(** [fetchAllTrades()]: [response.data || []]; the body of the reply is
    [None] when the server answers [null]. *)
Definition fetchAllTrades (reply : Reply (option (list AnalyticsTrade.t)))
  (s : TradingStore) : Run :=
  let s1 := set_loading s in
  let call := NetCall HttpGet "/me/orders" None in
  match reply with
  | inr data =>
      let trades :=
        match data with
        | Some l => l
        | None => []
        end in
      run Resolved (set_trades trades s1) [call]
  | inl err =>
      let errorMsg :=
        Js.or_string (response_data err)
          (Js.or_string (message err) "Failed to fetch trades") in
      run Resolved (set_error errorMsg s1) [call]
  end.

(** [fetchDashboardStats()]: no loading flag; the failure goes to the
    console only. *)
Definition fetchDashboardStats (reply : Reply DashboardStats)
  (s : TradingStore) : Run :=
  let call := NetCall HttpGet "/me/stats" None in
  match reply with
  | inr data => run Resolved (set_dashboardStats data s) [call]
  | inl err =>
      run Resolved s [call; ConsoleError "Failed to fetch dashboard stats:" err]
  end.


(** [setSelectedSymbol(symbol)] *)
Definition setSelectedSymbol (symbol : string) (s : TradingStore)
  : TradingStore :=
  mk (orderBook s) (Some symbol) (selectedSide s) (isLoading s) (error s)
     (trades s) (stats s) (lastOrder s) (dashboardStats s).

(** [setSelectedSide(side)] *)
Definition setSelectedSide (side : TradeSide) (s : TradingStore)
  : TradingStore :=
  mk (orderBook s) (selectedSymbol s) (Some side) (isLoading s) (error s)
     (trades s) (stats s) (lastOrder s) (dashboardStats s).

(** [clearError()] *)
Definition clearError (s : TradingStore) : TradingStore :=
  mk (orderBook s) (selectedSymbol s) (selectedSide s) (isLoading s) None
     (trades s) (stats s) (lastOrder s) (dashboardStats s).

(** [set({ stats: value, isLoading: false })] *)
Definition set_stats (value : option SymbolStats) (s : TradingStore)
  : TradingStore :=
  mk (orderBook s) (selectedSymbol s) (selectedSide s) false (error s)
     (trades s) value (lastOrder s) (dashboardStats s).

(** The body of the reply of [GET /me/analytics], by what
    [response.data.stats || response.data || null] makes of it. *)
Inductive AnalyticsBody : Type :=
| BodyNull                          (** [null], or no body *)
| BodyFalsy                         (** [0], [""] or [false] *)
| BodyWrapped (st : SymbolStats)    (** an object with a truthy [stats] *)
| BodyBare (st : SymbolStats).      (** an object without one, kept whole *)

(** The message of the [TypeError] that reading [.stats] of [null]
    throws; its wording is the engine's. *)
Definition null_stats_message : string :=
  "Cannot read properties of null (reading 'stats')".

(** The part of [fetchAnalytics] that runs once its request has settled.
    Reading [response.data.stats] happens inside the [try]: on a [null]
    body it throws, and the [catch] block handles the [TypeError] like a
    rejected request: it has no [response], and its [message] is
    stored. *)
Definition fetchAnalytics_settle (reply : Reply AnalyticsBody)
  (s : TradingStore) : TradingStore :=
  let failed (err : ApiError) :=
    let errorMsg :=
      Js.or_string (response_data err)
        (Js.or_string (message err) "Failed to fetch analytics") in
    set_error errorMsg s in
  match reply with
  | inr BodyNull =>
      failed {| response_data_message := None;
                response_data := None;
                message := Some null_stats_message |}
  | inr BodyFalsy => set_stats None s
  | inr (BodyWrapped st) => set_stats (Some st) s
  | inr (BodyBare st) => set_stats (Some st) s
  | inl err => failed err
  end.

(** [fetchAnalytics()]: the failure is stored, not rethrown. *)
Definition fetchAnalytics (reply : Reply AnalyticsBody) (s : TradingStore)
  : Run :=
  run Resolved (fetchAnalytics_settle reply (set_loading s))
      [NetCall HttpGet "/me/analytics" None].

(** The part of [fetchAllTrades] that runs once its request has settled. *)
Definition fetchAllTrades_settle
  (reply : Reply (option (list AnalyticsTrade.t))) (s : TradingStore)
  : TradingStore :=
  match reply with
  | inr data =>
      set_trades (match data with
                  | Some l => l
                  | None => []
                  end) s
  | inl err =>
      set_error
        (Js.or_string (response_data err)
           (Js.or_string (message err) "Failed to fetch trades")) s
  end.

End Store.

(* ================================================================== *)
(** ** Derived statistics of the Analytics page (pages/Analytics.tsx) *)
(* ================================================================== *)

Module Analytics.

Import AnalyticsTrade.

(** [selectedSymbol ? trades.filter(t => t.symbol === selectedSymbol) : trades]:
    [null] and the empty string are both falsy. *)
Definition filteredTrades (selectedSymbol : option string)
  (trades : list AnalyticsTrade.t) : list AnalyticsTrade.t :=
  match selectedSymbol with
  | Some sel =>
      if Js.truthy sel then filter (fun t => String.eqb (symbol t) sel) trades
      else trades
  | None => trades
  end.

Definition is_filled (t : AnalyticsTrade.t) : bool :=
  String.eqb (status t) "FILLED".

(** [filteredTrades.filter(t => t.status === 'FILLED')] *)
Definition filledTrades (selectedSymbol : option string)
  (trades : list AnalyticsTrade.t) : list AnalyticsTrade.t :=
  filter is_filled (filteredTrades selectedSymbol trades).

(** An array List.length as a number. *)
Definition len (l : list AnalyticsTrade.t) : Q := inject_Z (Z.of_nat (List.length l)).

(** [(filledTrades.length / filteredTrades.length) * 100]: a division and
    a multiplication of doubles, each rounded. *)
Definition fillRatePercent (selectedSymbol : option string)
  (trades : list AnalyticsTrade.t) : Q :=
  Js.round64
    (Js.round64
       (len (filledTrades selectedSymbol trades)
          / len (filteredTrades selectedSymbol trades))
     * 100)%Q.

(** [l.reduce((sum, t) => sum + (t.exec_qty || 0), 0)] *)
Definition sum_exec_qty (l : list AnalyticsTrade.t) : Q :=
  fold_left (fun sum t => (sum + Js.or_zero (exec_qty t))%Q) l 0%Q.

(** [l.reduce((sum, t) => sum + (t.slippage_bps || 0), 0)] *)
Definition sum_slippage_bps (l : list AnalyticsTrade.t) : Q :=
  fold_left (fun sum t => (sum + Js.or_zero (slippage_bps t))%Q) l 0%Q.

Record StatsLocal : Type := {
  totalTrades : nat;
  fillRate : string;
  totalQuantity : string;
  avgSlippage : string;
  buyTrades : nat;
  sellTrades : nat
}.

Definition stats_local (selectedSymbol : option string)
  (trades : list AnalyticsTrade.t) : StatsLocal :=
  let filtered := filteredTrades selectedSymbol trades in
  let filled := filledTrades selectedSymbol trades in
  {| totalTrades := List.length filtered;
     fillRate :=
       if (0 <? List.length filtered)%nat
       then Js.toFixed 1 (fillRatePercent selectedSymbol trades)
       else "0"%string;
     totalQuantity := Js.toFixed 4 (sum_exec_qty filled);
     avgSlippage :=
       if (0 <? List.length filled)%nat
       then Js.toFixed 2 (sum_slippage_bps filled / len filled)%Q
       else "0"%string;
     buyTrades :=
       List.length (filter (fun t => String.eqb (side t) "BUY") filtered);
     sellTrades :=
       List.length (filter (fun t => String.eqb (side t) "SELL") filtered) |}.

(** [l.slice(-n)]: the last [n] elements, all of them when there are fewer. *)
Definition slice_last {A : Type} (n : nat) (l : list A) : list A :=
  skipn (List.length l - n) l.

(** [filledTrades.slice(-20).reverse()], the records behind both the labels
    and the data of the slippage chart. *)
Definition slippageWindow (selectedSymbol : option string)
  (trades : list AnalyticsTrade.t) : list AnalyticsTrade.t :=
  rev (slice_last 20 (filledTrades selectedSymbol trades)).

(** [t.exec_created_at || t.created_at], the instant a chart label shows. *)
Definition label_instant (t : AnalyticsTrade.t) : string :=
  Js.or_string (exec_created_at t) (created_at t).

Record ChartData : Type := {
  labels : list string;
  data : list Q
}.

Section Chart.

(** [s => new Date(s).toLocaleDateString()], which depends on the locale
    of the browser. *)
Variable toLocaleDateString : string -> string.

Definition slippageChartData (selectedSymbol : option string)
  (trades : list AnalyticsTrade.t) : ChartData :=
  {| labels :=
       map (fun t => toLocaleDateString (label_instant t))
           (slippageWindow selectedSymbol trades);
     data :=
       map (fun t => Js.or_zero (slippage_bps t))
           (slippageWindow selectedSymbol trades) |}.

End Chart.

(** The page after mount: the store once [fetchAllTrades] has completed,
    and the statistics derived from its [trades] slot. *)
Definition stats_after_fetch (reply : Reply (option (list AnalyticsTrade.t)))
  (selectedSymbol : option string) (s : Store.TradingStore) : StatsLocal :=
  stats_local selectedSymbol
    (Store.trades (Store.after (Store.fetchAllTrades reply s))).


(** [new Set(xs)] read back with [Array.from]: the distinct values in the
    order of their first occurrence. *)
Definition Set_from (xs : list string) : list string :=
  fold_left
    (fun seen x => if existsb (String.eqb x) seen then seen else seen ++ [x])
    xs [].

(** [Array.from(new Set(trades.map((t) => t.symbol)))] *)
Definition symbols (trades : list AnalyticsTrade.t) : list string :=
  Set_from (map symbol trades).

(** What the body of the page shows. *)
Inductive Body : Type :=
| LoadingAnalytics
| NoTradesYet
| Content (symbolFilter : bool) (stats : StatsLocal).

(** The three branches of the [main] element; the buttons of the symbol
    filter are drawn when [symbols.length > 1]. *)
Definition body (isLoading : bool) (selectedSymbol : option string)
  (trades : list AnalyticsTrade.t) : Body :=
  if isLoading && (List.length trades =? 0)%nat then LoadingAnalytics
  else if (List.length trades =? 0)%nat then NoTradesYet
  else Content (1 <? List.length (symbols trades))%nat
               (stats_local selectedSymbol trades).

(** The effect of the page, [fetchAllTrades(); fetchAnalytics();]: both
    actions run up to their [await], so both requests are out before
    either settles. *)
Definition mount_begin (s : Store.TradingStore)
  : Store.TradingStore * list Event :=
  (Store.set_loading (Store.set_loading s),
   [NetCall HttpGet "/me/orders" None; NetCall HttpGet "/me/analytics" None]).

(** The body of the page for a state of the store. *)
Definition page_body (selectedSymbol : option string)
  (s : Store.TradingStore) : Body :=
  body (Store.isLoading s) selectedSymbol (Store.trades s).

End Analytics.

Module TimeOrder.

Import AnalyticsTrade Analytics.

(** Vocabulary for statements about the order in time of chart entries;
    none of it is code of the page.

    The timestamps of the API are ISO-8601 strings of one format, which
    the lexicographic order of strings orders by time. *)

(** Oldest first. *)
Fixpoint chronological (l : list AnalyticsTrade.t) : bool :=
  match l with
  | [] => true
  | a :: r =>
      match r with
      | [] => true
      | b :: _ =>
          String.leb (label_instant a) (label_instant b) && chronological r
      end
  end.

Definition same_order (a b : AnalyticsTrade.t) : bool :=
  (order_id a =? order_id b)%Z.

Definition shown (window : list AnalyticsTrade.t) (t : AnalyticsTrade.t)
  : bool :=
  existsb (same_order t) window.

(** The window holds the most recent records of [pool]: no record left out
    of it is later than a record inside it. *)
Definition most_recent_of (pool window : list AnalyticsTrade.t) : bool :=
  forallb
    (fun t =>
       shown window t
       || forallb (fun w => String.leb (label_instant t) (label_instant w))
            window)
    pool.

End TimeOrder.

(* ================================================================== *)
(** ** The [OrderBook] component (components/OrderBook.tsx) *)
(* ================================================================== *)

Module OrderBookView.

Record Props : Type := {
  symbol : string;
  (** whether the parent passed [onDataReceived] *)
  onDataReceived : bool
}.

(** The three [useState] slots. *)
Record State : Type := mk {
  orderBook : option OrderBook.t;
  isLoading : bool;
  error : string
}.

Definition init : State := mk None false EmptyString.

(** [setIsLoading(true); setError('')], before the request is awaited. *)
Definition fetch_begin (st : State) : State :=
  mk (orderBook st) true EmptyString.

(** The rest of [fetchOrderBook], once the request has settled; the
    [finally] block clears the loading flag on both paths. *)
Definition fetch_settle (props : Props) (reply : Reply OrderBook.t)
  (st : State) : State * list Event :=
  match reply with
  | inr data =>
      (mk (Some data) false (error st),
       if onDataReceived props then [OnDataReceived data] else [])
  | inl err =>
      (mk (orderBook st) false "Failed to fetch order book",
       [ConsoleError EmptyString err])
  end.

Definition fetchOrderBook (props : Props) (reply : Reply OrderBook.t)
  (st : State) : State * list Event :=
  let call := NetCall HttpGet (append "/orderbook/" (symbol props)) None in
  let '(st', evs) := fetch_settle props reply (fetch_begin st) in
  (st', call :: evs).

(** The value of [Math.max(...xs)]: [-Infinity] for no argument. *)
Inductive MaxResult : Type :=
| MinusInfinity
| Max (q : Q).

Definition Math_max (xs : list Q) : MaxResult :=
  fold_left
    (fun acc x =>
       match acc with
       | MinusInfinity => Max x
       | Max a => Max (if Qle_bool a x then x else a)
       end)
    xs MinusInfinity.

(** [levels.map(b => b.size || 0).filter(s => s > 0)] *)
Definition positive_sizes (levels : list OrderLevel.t) : list Q :=
  filter (fun s => negb (Qle_bool s 0))
         (map (fun b => Js.or_zero (OrderLevel.size b)) levels).

Definition maxSize (bids asks : list OrderLevel.t) : MaxResult :=
  Math_max (positive_sizes bids ++ positive_sizes asks).

(** [a / b] where both are finite: the quotient, or [None] for the
    results that are not finite numbers ([Infinity], [NaN]), which is what
    a zero divisor yields. *)
Definition divide (a b : Q) : option Q :=
  if Qeq_bool b 0 then None else Some (a / b)%Q.

(** [maxSize > 0 ? (size / maxSize) * 100 : 0] *)
Definition level_width (m : MaxResult) (size : Q) : option Q :=
  match m with
  | Max q =>
      if negb (Qle_bool q 0)
      then option_map (fun r => (r * 100)%Q) (divide size q)
      else Some 0%Q
  | MinusInfinity => Some 0%Q
  end.

(** One line of a side of the book. *)
Record Row : Type := {
  price : Q;
  size : Q;
  width : option Q
}.

Definition row (m : MaxResult) (level : OrderLevel.t) : Row :=
  let size := Js.nullish_zero (OrderLevel.size level) in
  {| price := Js.nullish_zero (OrderLevel.price level);
     size := size;
     width := level_width m size |}.

Inductive View : Type :=
| Loading
| ErrorView (msg : string)
| NoData
| Incomplete
| Book (mid : string) (bidRows askRows : list Row).

(** [!orderBook] *)
Definition is_null (ob : option OrderBook.t) : bool :=
  match ob with
  | Some _ => false
  | None => true
  end.

(** The body of the component after its hooks, in the order of its
    [if ... return] statements. *)
Definition render (st : State) : View :=
  if isLoading st && is_null (orderBook st) then Loading
  else if Js.truthy (error st) then ErrorView (error st)
  else
    match orderBook st with
    | None => NoData
    | Some ob =>
        match OrderBook.bids ob, OrderBook.asks ob with
        | Some bids, Some asks =>
            if ((List.length bids =? 0) || (List.length asks =? 0))%nat
            then Incomplete
            else
              let m := maxSize bids asks in
              Book (Js.toFixed 2 (Js.nullish_zero (OrderBook.mid ob)))
                   (map (row m) bids) (map (row m) asks)
        | _, _ => Incomplete
        end
    end.

(** The widths a view shows. *)
Definition widths (v : View) : list (option Q) :=
  match v with
  | Book _ bidRows askRows => map width bidRows ++ map width askRows
  | _ => []
  end.


(** The effect of the component while it is mounted.  Its body makes a
    closure [fetchOrderBook] over the props of the render it belongs to,
    calls it once and hands it to [setInterval(fetchOrderBook, 60000)].  It
    runs at mount and again after every render whose [symbol] or
    [onDataReceived] is not the one of the render before, the cleanup of
    the earlier run having cleared its timer; a parent that passes a new
    arrow function on each of its renders, as the Dashboard does, re-runs
    it with each of them.  A call sends its request and returns at the
    [await]; the rest of it runs when the reply arrives, whatever has been
    called or has arrived in between. *)

(** [timer] is the closure that [setInterval] holds, named by the props it
    was made under; [inflight] lists the requests that have not settled,
    oldest first, each by the props of the closure that sent it. *)
Record Mounted : Type := mounted {
  view : State;
  timer : option Props;
  inflight : list Props
}.

Inductive Step : Type :=
(** the effect runs for a render with these props *)
| Effect (props : Props)
(** the interval fires *)
| Tick
(** the [n]-th request in flight settles with this reply *)
| Arrive (n : nat) (reply : Reply OrderBook.t).

Definition request (props : Props) : Event :=
  NetCall HttpGet (append "/orderbook/" (symbol props)) None.

(** A call of the closure made under [props], up to its [await]. *)
Definition call (props : Props) (m : Mounted) : Mounted * list Event :=
  (mounted (fetch_begin (view m)) (timer m) (inflight m ++ [props]),
   [request props]).

Definition step (s : Step) (m : Mounted) : Mounted * list Event :=
  match s with
  | Effect props =>
      let '(m', evs) := call props m in
      (mounted (view m') (Some props) (inflight m'), evs)
  | Tick =>
      match timer m with
      | Some props => call props m
      | None => (m, [])
      end
  | Arrive n reply =>
      match nth_error (inflight m) n with
      | Some props =>
          let '(st, evs) := fetch_settle props reply (view m) in
          (mounted st (timer m)
             (firstn n (inflight m) ++ skipn (S n) (inflight m)),
           evs)
      | None => (m, [])
      end
  end.

Fixpoint run (trace : list Step) (m : Mounted) : Mounted * list Event :=
  match trace with
  | [] => (m, [])
  | s :: rest =>
      let '(m1, evs1) := step s m in
      let '(m2, evs2) := run rest m1 in
      (m2, evs1 ++ evs2)
  end.

(** The closure a step calls, if it calls one. *)
Definition called (s : Step) (m : Mounted) : list Props :=
  match s with
  | Effect props => [props]
  | Tick =>
      match timer m with
      | Some props => [props]
      | None => []
      end
  | Arrive _ _ => []
  end.

(** The reply a step delivers, with the props of the closure that had
    asked for it. *)
Definition arrived (s : Step) (m : Mounted)
  : list (Props * Reply OrderBook.t) :=
  match s with
  | Arrive n reply =>
      match nth_error (inflight m) n with
      | Some props => [(props, reply)]
      | None => []
      end
  | _ => []
  end.

(** The calls of a trace, in their order. *)
Fixpoint calls (trace : list Step) (m : Mounted) : list Props :=
  match trace with
  | [] => []
  | s :: rest => called s m ++ calls rest (fst (step s m))
  end.

(** The replies a trace delivers, in the order of their arrival. *)
Fixpoint arrivals (trace : list Step) (m : Mounted)
  : list (Props * Reply OrderBook.t) :=
  match trace with
  | [] => []
  | s :: rest => arrived s m ++ arrivals rest (fst (step s m))
  end.

End OrderBookView.

(* ================================================================== *)
(** ** The [TradeForm] component (components/TradeForm.tsx) *)
(* ================================================================== *)

Module TradeForm.

Record Props : Type := {
  symbol : string;
  currentPrice : Q;
  (** whether the parent passed [onSuccess] *)
  onSuccess : bool
}.

(** The four [useState] slots; the inputs keep their text. *)
Record Form : Type := mk {
  side : TradeSide;
  type : OrderType;
  quantity : string;
  limitPrice : string
}.

Definition init : Form := mk BUY MARKET EmptyString EmptyString.

(** [!quantity || parseFloat(quantity) <= 0] *)
Definition invalid_quantity (quantity : string) : bool :=
  negb (Js.truthy quantity) || Js.le_zero (Js.parseFloat quantity).

(** The request [handleSubmit] builds. *)
Definition request (props : Props) (f : Form) : TradeRequest.t :=
  TradeRequest.mk (symbol props) (side f) (type f)
    (Js.parseFloat (quantity f))
    (match type f with
     | LIMIT => Some (Js.parseFloat (limitPrice f))
     | MARKET => None
     end).

(** [handleSubmit]: the form, the store and the effects it leaves.  The
    [catch] block is empty: a rejected submission leaves the form as it is. *)
Definition handleSubmit (props : Props) (reply : Reply OrderResponse.t)
  (f : Form) (s : Store.TradingStore)
  : Form * Store.TradingStore * list Event :=
  if invalid_quantity (quantity f)
  then (f, s, [Alert "Please enter a valid quantity"])
  else
    let r := Store.submitTrade (request props f) reply s in
    match Store.completion r with
    | Resolved =>
        (mk (side f) (type f) EmptyString EmptyString,
         Store.after r,
         Store.events r ++ (if onSuccess props then [OnSuccess] else []))
    | Rejected _ => (f, Store.after r, Store.events r)
    end.

(** The outcome of evaluating a piece of JSX. *)
Inductive Rendered (A : Type) : Type :=
| Shown (a : A)
| TypeError (what : string).
Arguments Shown {A} a.
Arguments TypeError {A} what.

(** The two numbers of the confirmation line. *)
Record Banner : Type := {
  execution_price : string;
  slippage_percent : string
}.

(** [lastOrder && <div> ... {lastOrder.exec_price.toFixed(2)} ...
    {lastOrder.slippage.toFixed(4)} ... </div>]: [toFixed] is called on
    whatever the two fields hold. *)
Definition lastOrderBanner (lastOrder : option OrderResponse.t)
  : Rendered (option Banner) :=
  match lastOrder with
  | None => Shown None
  | Some o =>
      match OrderResponse.exec_price o with
      | None => TypeError "lastOrder.exec_price is undefined"
      | Some p =>
          match OrderResponse.slippage o with
          | None => TypeError "lastOrder.slippage is undefined"
          | Some sl =>
              Shown (Some {| execution_price := Js.toFixed 2 p;
                             slippage_percent := Js.toFixed 4 sl |})
          end
      end
  end.

End TradeForm.

(* ================================================================== *)
(** ** The polling effect of the [Dashboard] page (in pages/Signup.tsx) *)
(* ================================================================== *)

Module Dashboard.

(** The request of every refresh. *)
Definition stats_call : Event := NetCall HttpGet "/me/stats" None.

(** The store together with the timer of the effect: the period in
    milliseconds of the interval while it is set. *)
Record State : Type := mk {
  store : Store.TradingStore;
  interval : option Z
}.

(** The effect body: one fetch at once, then [setInterval(..., 30000)]. *)
Definition mount (reply : Reply DashboardStats) (s : Store.TradingStore)
  : State * list Event :=
  let r := Store.fetchDashboardStats reply s in
  (mk (Store.after r) (Some 30000), Store.events r).

(** The timer fires: the callback runs if the interval is still set. *)
Definition tick (reply : Reply DashboardStats) (d : State)
  : State * list Event :=
  match interval d with
  | Some _ =>
      let r := Store.fetchDashboardStats reply (store d) in
      (mk (Store.after r) (interval d), Store.events r)
  | None => (d, [])
  end.

(** The cleanup of the effect: [clearInterval(interval)]. *)
Definition unmount (d : State) : State := mk (store d) None.

(** The timer fires once for every reply of the list. *)
Fixpoint ticks (replies : list (Reply DashboardStats)) (d : State)
  : State * list Event :=
  match replies with
  | [] => (d, [])
  | reply :: rest =>
      let '(d1, evs1) := tick reply d in
      let '(d2, evs2) := ticks rest d1 in
      (d2, evs1 ++ evs2)
  end.


(** The two cards of the page that show [dashboardStats]. *)
Record QuickStats : Type := {
  openOrders : Z;
  openOrdersCaption : string;
  portfolioValue : string;
  portfolioCaption : string
}.

(** [dashboardStats?.open_orders ?? 0] and
    [dashboardStats?.portfolio_value ?? 0], with their captions. *)
Definition quickStats (dashboardStats : option DashboardStats) : QuickStats :=
  let orders :=
    match dashboardStats with
    | Some d => open_orders d
    | None => 0
    end in
  let value :=
    match dashboardStats with
    | Some d => portfolio_value d
    | None => 0%Q
    end in
  {| openOrders := orders;
     openOrdersCaption :=
       if orders =? 0 then "No pending orders"%string else "Pending"%string;
     portfolioValue := Js.toFixed 2 value;
     portfolioCaption :=
       if negb (Qle_bool value 0) then "Holdings"%string
       else "No holdings"%string |}.

End Dashboard.


(* ================================================================== *)
(** ** Runs of replies *)
(* ================================================================== *)

Module Polling.

(** The body of the last reply of a run that succeeded, if any did. *)
Fixpoint last_success {A : Type} (replies : list (Reply A)) : option A :=
  match replies with
  | [] => None
  | reply :: rest =>
      match last_success rest with
      | Some x => Some x
      | None =>
          match reply with
          | inr x => Some x
          | inl _ => None
          end
      end
  end.

(** The bodies of the replies that succeeded, in their order. *)
Fixpoint successes {A : Type} (replies : list (Reply A)) : list A :=
  match replies with
  | [] => []
  | inr x :: rest => x :: successes rest
  | inl _ :: rest => successes rest
  end.

(** The snapshots handed to [onDataReceived] among some effects. *)
Fixpoint received (evs : list Event) : list OrderBook.t :=
  match evs with
  | [] => []
  | OnDataReceived data :: rest => data :: received rest
  | _ :: rest => received rest
  end.

End Polling.

(* ================================================================== *)
(** ** The session store [useAuthStore] and the HTTP client
       (store/authStore.ts) *)
(* ================================================================== *)

Module LoginResponse.
(** The fields [login] reads of the reply of [POST /auth/login]. *)
Record t : Type := mk {
  token : string;
  user_id : Z;
  email : string
}.
End LoginResponse.

Module SignupResponse.
(** The fields [signup] reads of the reply of [POST /auth/signup]. *)
Record t : Type := mk {
  user_id : Z;
  email : string
}.
End SignupResponse.

Module Auth.

Definition API_BASE_URL : string := "http://localhost:8082/api".

(** [localStorage]: its entries, at most one for a key. *)
Definition Storage : Type := list (string * string).

Definition getItem (key : string) (ls : Storage) : option string :=
  option_map snd (find (fun kv => String.eqb (fst kv) key) ls).

Definition removeItem (key : string) (ls : Storage) : Storage :=
  filter (fun kv => negb (String.eqb (fst kv) key)) ls.

Definition setItem (key value : string) (ls : Storage) : Storage :=
  (key, value) :: removeItem key ls.

Record AuthStore : Type := mk {
  token : option string;
  userId : option Js.JsNumber;
  email : option string;
  isLoading : bool;
  error : option string
}.

(** [create(...)]: the session is read back from [localStorage];
    [userId] is [parseInt] of the stored text when there is a non-empty
    one. *)
Definition init (ls : Storage) : AuthStore :=
  mk (getItem "token" ls)
     (match getItem "userId" ls with
      | Some text => if Js.truthy text then Some (Js.parseInt text) else None
      | None => None
      end)
     (getItem "email" ls)
     false None.

(** The store and the storage of the browser it writes through to. *)
Record World : Type := world {
  store : AuthStore;
  storage : Storage
}.

(** Effects of the session code: a request sent with [axios.post], and a
    call of [navigate]. *)
Inductive AuthEvent : Type :=
| Post (url : string) (email password : string)
| Navigate (to : string).

Definition is_Post (e : AuthEvent) : bool :=
  match e with
  | Post _ _ _ => true
  | Navigate _ => false
  end.

Record Run : Type := run {
  completion : Completion;
  after : World;
  events : list AuthEvent
}.

(** [set({ isLoading: true, error: null })] *)
Definition set_loading (s : AuthStore) : AuthStore :=
  mk (token s) (userId s) (email s) true None.

(** [set({ error: errorMsg, isLoading: false })] *)
Definition set_error (msg : string) (s : AuthStore) : AuthStore :=
  mk (token s) (userId s) (email s) false (Some msg).

(** The three [localStorage.setItem] calls of a session. *)
Definition store_session (token : string) (user_id : Z) (email : string)
  (ls : Storage) : Storage :=
  setItem "email" email
    (setItem "userId" (Js.int_toString user_id)
       (setItem "token" token ls)).

(** [set({ token, userId: user_id, email: userEmail, isLoading: false })] *)
Definition set_session (token : string) (user_id : Z) (email : string)
  (s : AuthStore) : AuthStore :=
  mk (Some token) (Some (Js.Fin (inject_Z user_id))) (Some email)
     false (error s).

(** [login(email, password)]: the failure is stored and rethrown. *)
Definition login (email password : string) (reply : Reply LoginResponse.t)
  (w : World) : Run :=
  let s1 := set_loading (store w) in
  let call := Post (append API_BASE_URL "/auth/login") email password in
  match reply with
  | inr data =>
      let token := LoginResponse.token data in
      let user_id := LoginResponse.user_id data in
      let userEmail := LoginResponse.email data in
      run Resolved
          (world (set_session token user_id userEmail s1)
                 (store_session token user_id userEmail (storage w)))
          [call]
  | inl err =>
      let errorMsg :=
        Js.or_string (response_data_message err) "Login failed" in
      run (Rejected err) (world (set_error errorMsg s1) (storage w)) [call]
  end.

(** [signup(email, password)]: the account is created, then the same
    credentials are used to log in; the identity comes from the first
    reply and the token from the second.  A failure of either request is
    stored and rethrown. *)
Definition signup (email password : string)
  (signupReply : Reply SignupResponse.t) (loginReply : Reply LoginResponse.t)
  (w : World) : Run :=
  let s1 := set_loading (store w) in
  let call1 := Post (append API_BASE_URL "/auth/signup") email password in
  let call2 := Post (append API_BASE_URL "/auth/login") email password in
  let failed (err : ApiError) (evs : list AuthEvent) :=
    let errorMsg :=
      Js.or_string (response_data_message err) "Signup failed" in
    run (Rejected err) (world (set_error errorMsg s1) (storage w)) evs in
  match signupReply with
  | inl err => failed err [call1]
  | inr created =>
      match loginReply with
      | inl err => failed err [call1; call2]
      | inr data =>
          let token := LoginResponse.token data in
          let user_id := SignupResponse.user_id created in
          let userEmail := SignupResponse.email created in
          run Resolved
              (world (set_session token user_id userEmail s1)
                     (store_session token user_id userEmail (storage w)))
              [call1; call2]
      end
  end.

(** [logout()] *)
Definition logout (w : World) : World :=
  world (mk None None None false None)
        (removeItem "email" (removeItem "userId" (removeItem "token" (storage w)))).

(** [setToken(token, userId, email)] *)
Definition setToken (token : string) (userId : Z) (email : string)
  (w : World) : World :=
  world (mk (Some token) (Some (Js.Fin (inject_Z userId))) (Some email)
            (isLoading (store w)) (error (store w)))
        (store_session token userId email (storage w)).

(** [!!token && !!userId], as [isAuthenticated], [ProtectedRoute] and
    [Home] compute it. *)
Definition authenticated (s : AuthStore) : bool :=
  match token s, userId s with
  | Some t, Some n => Js.truthy t && Js.truthy_number n
  | _, _ => false
  end.

Definition isAuthenticated (s : AuthStore) : bool := authenticated s.

(** The request interceptor of [apiClient]: the [Authorization] header it
    adds, if any. *)
Definition authorization (ls : Storage) : option string :=
  match getItem "token" ls with
  | Some t => if Js.truthy t then Some (append "Bearer " t) else None
  | None => None
  end.

End Auth.

(* ================================================================== *)
(** ** Route guard and the session pages
       (components/ProtectedRoute.tsx, pages/Home.tsx, pages/Login.tsx,
       pages/Signup.tsx) *)
(* ================================================================== *)

Module Pages.

(** What [ProtectedRoute] returns. *)
Inductive Guarded : Type :=
| Children
| RedirectTo (path : string).

Definition ProtectedRoute (s : Auth.AuthStore) : Guarded :=
  if negb (Auth.authenticated s) then RedirectTo "/login" else Children.

(** The effect of [Home]: where it navigates, if anywhere. *)
Definition Home_effect (s : Auth.AuthStore) : option string :=
  if Auth.authenticated s then Some "/dashboard"%string else None.

(** [Login.handleSubmit]: the [catch] block is empty. *)
Definition Login_handleSubmit (email password : string)
  (reply : Reply LoginResponse.t) (w : Auth.World)
  : Auth.World * list Auth.AuthEvent :=
  let r := Auth.login email password reply w in
  match Auth.completion r with
  | Resolved => (Auth.after r, Auth.events r ++ [Auth.Navigate "/dashboard"])
  | Rejected _ => (Auth.after r, Auth.events r)
  end.

(** The [useState] slots of [Signup]. *)
Record SignupForm : Type := {
  email : string;
  password : string;
  confirmPassword : string;
  validationError : string
}.

Definition with_validationError (msg : string) (f : SignupForm)
  : SignupForm :=
  {| email := email f;
     password := password f;
     confirmPassword := confirmPassword f;
     validationError := msg |}.

(** [Signup.handleSubmit]: the message of the last attempt is cleared,
    the two passwords are compared and the length of the password is
    checked before anything is sent. *)
Definition Signup_handleSubmit (f : SignupForm)
  (signupReply : Reply SignupResponse.t) (loginReply : Reply LoginResponse.t)
  (w : Auth.World)
  : SignupForm * Auth.World * list Auth.AuthEvent :=
  if negb (String.eqb (password f) (confirmPassword f))
  then (with_validationError "Passwords do not match" f, w, [])
  else if (String.length (password f) <? 6)%nat
  then (with_validationError "Password must be at least 6 characters" f,
        w, [])
  else
    let r := Auth.signup (email f) (password f) signupReply loginReply w in
    match Auth.completion r with
    | Resolved =>
        (with_validationError EmptyString f, Auth.after r,
         Auth.events r ++ [Auth.Navigate "/dashboard"])
    | Rejected _ =>
        (with_validationError EmptyString f, Auth.after r, Auth.events r)
    end.

(** [error || validationError], the message shown above the form. *)
Definition Signup_message (s : Auth.AuthStore) (f : SignupForm)
  : option string :=
  match Auth.error s with
  | Some e => if Js.truthy e then Some e
              else if Js.truthy (validationError f)
                   then Some (validationError f) else None
  | None => if Js.truthy (validationError f)
            then Some (validationError f) else None
  end.

End Pages.

(* ================================================================== *)
(** ** Sample payloads *)
(* ================================================================== *)

Module Samples.

(** A filled market order of quantity 1 with the given slippage. *)
Definition filled (id : Z) (sym side : string) (slip : Q) (at_ : string)
  : AnalyticsTrade.t :=
  AnalyticsTrade.mk id sym side "MARKET" 1 None "FILLED" (Some 100%Q)
    at_ at_ (Some id) (Some 100%Q) (Some 1%Q) (Some slip) (Some at_).

(** A pending order: no execution data. *)
Definition pending (id : Z) (sym side : string) (at_ : string)
  : AnalyticsTrade.t :=
  AnalyticsTrade.mk id sym side "MARKET" 1 None "PENDING" (Some 100%Q)
    at_ at_ None None None None None.

(** Two fills and one pending order. *)
Definition two_fills_one_pending : list AnalyticsTrade.t :=
  [ filled 1 "BTC-USD" "BUY" 4 "2024-01-01T10:00:00Z";
    filled 2 "BTC-USD" "SELL" 6 "2024-01-02T10:00:00Z";
    pending 3 "ETH-USD" "BUY" "2024-01-03T10:00:00Z" ].

(** A history in which one record carries the empty symbol. *)
Definition with_empty_symbol : list AnalyticsTrade.t :=
  [ filled 1 "" "BUY" 4 "2024-01-01T10:00:00Z";
    filled 2 "BTC-USD" "SELL" 6 "2024-01-02T10:00:00Z" ].

(** Midnight of a day of January 2024. *)
Definition january (day : nat) : string :=
  let d := NilZero.string_of_uint (Nat.to_uint day) in
  append "2024-01-"
    (append (if (day <? 10)%nat then append "0" d else d) "T00:00:00Z").

Definition fill_of_day (day : nat) : AnalyticsTrade.t :=
  filled (Z.of_nat day) "BTC-USD" "BUY" (inject_Z (Z.of_nat day)) (january day).

(** A history delivered oldest first: the fills of 1 and 2 January. *)
Definition oldest_first : list AnalyticsTrade.t :=
  map fill_of_day (seq 1 2).

(** A history delivered newest first: the fills of 21, 20, ..., 1 January. *)
Definition newest_first : list AnalyticsTrade.t :=
  map fill_of_day (rev (seq 1 21)).

(** A history of 80 orders of which the first 23 are filled. *)
Definition twenty_three_of_eighty : list AnalyticsTrade.t :=
  map fill_of_day (seq 1 23)
  ++ map (fun i => pending (Z.of_nat i) "BTC-USD" "BUY" (january 24))
         (seq 24 57).

(** A book whose levels all have size zero or no size. *)
Definition sizeless_book : OrderBook.t :=
  OrderBook.mk "BTC-USD" (Some 100%Q)
    (Some [OrderLevel.mk BID (Some 99%Q) (Some 0%Q)])
    (Some [OrderLevel.mk ASK (Some 101%Q) None]).

(** A book with no asks. *)
Definition one_sided_book : OrderBook.t :=
  OrderBook.mk "BTC-USD" (Some 100%Q)
    (Some [OrderLevel.mk BID (Some 99%Q) (Some 2%Q)])
    (Some []).

(** A book with levels on both sides. *)
Definition full_book : OrderBook.t :=
  OrderBook.mk "BTC-USD" (Some 100%Q)
    (Some [OrderLevel.mk BID (Some 99%Q) (Some 2%Q);
           OrderLevel.mk BID (Some 98%Q) (Some 1%Q)])
    (Some [OrderLevel.mk ASK (Some 101%Q) (Some 4%Q)]).

(** A book of another symbol. *)
Definition eth_book : OrderBook.t :=
  OrderBook.mk "ETH-USD" (Some 10%Q)
    (Some [OrderLevel.mk BID (Some 9%Q) (Some 3%Q)])
    (Some [OrderLevel.mk ASK (Some 11%Q) (Some 5%Q)]).

(** The props the Dashboard gives the order book for a symbol. *)
Definition btc_book_props : OrderBookView.Props :=
  {| OrderBookView.symbol := "BTC-USD";
     OrderBookView.onDataReceived := true |}.

Definition eth_book_props : OrderBookView.Props :=
  {| OrderBookView.symbol := "ETH-USD";
     OrderBookView.onDataReceived := true |}.

(** A request that failed without a reply of the server. *)
Definition network_error : ApiError :=
  {| response_data_message := None;
     response_data := None;
     message := Some "Network Error"%string |}.

(** The reply to a submission that is still pending: no execution data. *)
Definition pending_response : OrderResponse.t :=
  OrderResponse.mk 7 "BTC-USD" "BUY" "LIMIT" 1 (Some 90%Q) (Some 100%Q)
    None None "PENDING".

(** The reply to a submission that was filled at once. *)
Definition filled_response : OrderResponse.t :=
  OrderResponse.mk 8 "BTC-USD" "BUY" "MARKET" 1 None (Some 100%Q)
    (Some (2005 # 20)) (Some (1 # 4)) "FILLED".

Definition btc_form_props : TradeForm.Props :=
  {| TradeForm.symbol := "BTC-USD";
     TradeForm.currentPrice := 100;
     TradeForm.onSuccess := true |}.

Definition dashboard_stats : DashboardStats :=
  {| open_orders := 2; portfolio_value := 2500 |}.


(** The reply to a login. *)
Definition login_reply : LoginResponse.t :=
  LoginResponse.mk "eyJhbGciOi" 42 "trader@example.com".

(** The reply to the creation of an account. *)
Definition signup_reply : SignupResponse.t :=
  SignupResponse.mk 42 "trader@example.com".

(** A browser without a session. *)
Definition signed_out : Auth.World :=
  Auth.world (Auth.init []) [].

(** A signup form that passes both checks. *)
Definition good_signup : Pages.SignupForm :=
  {| Pages.email := "trader@example.com";
     Pages.password := "s3cret!";
     Pages.confirmPassword := "s3cret!";
     Pages.validationError := EmptyString |}.

End Samples.

(* ================================================================== *)
(** ** Properties *)
(* ================================================================== *)

Section ListFacts.

Context {A : Type}.

Lemma filter_swap (f g : A -> bool) (l : list A) :
  filter f (filter g l) = filter g (filter f l).
Proof.
  induction l as [|a l IH]; simpl; [reflexivity|].
  destruct (g a) eqn:Hg, (f a) eqn:Hf; simpl;
    rewrite ?Hg, ?Hf, IH; reflexivity.
Qed.

Lemma filter_idem (f : A -> bool) (l : list A) :
  filter f (filter f l) = filter f l.
Proof.
  induction l as [|a l IH]; simpl; [reflexivity|].
  destruct (f a) eqn:Hf; simpl; rewrite ?Hf, IH; reflexivity.
Qed.

Lemma filter_length_le (f : A -> bool) (l : list A) :
  (List.length (filter f l) <= List.length l)%nat.
Proof.
  induction l as [|a l IH]; simpl; [lia|].
  destruct (f a); simpl; lia.
Qed.

Lemma slice_last_length (n : nat) (l : list A) :
  List.length (Analytics.slice_last n l) = Nat.min n (List.length l).
Proof. unfold Analytics.slice_last. rewrite length_skipn. lia. Qed.

Lemma slice_last_incl (n : nat) (l : list A) (x : A) :
  In x (Analytics.slice_last n l) -> In x l.
Proof.
  unfold Analytics.slice_last. intros Hin.
  rewrite <- (firstn_skipn (List.length l - n) l).
  apply in_or_app. right. exact Hin.
Qed.

End ListFacts.

Section AnalyticsFacts.

Import Analytics.

Variable sel : option string.

Lemma filteredTrades_app (H1 H2 : list AnalyticsTrade.t) :
  filteredTrades sel (H1 ++ H2)
  = filteredTrades sel H1 ++ filteredTrades sel H2.
Proof.
  unfold filteredTrades. destruct sel as [s|]; [|reflexivity].
  destruct (Js.truthy s); [apply filter_app | reflexivity].
Qed.

Lemma filledTrades_app (H1 H2 : list AnalyticsTrade.t) :
  filledTrades sel (H1 ++ H2) = filledTrades sel H1 ++ filledTrades sel H2.
Proof.
  unfold filledTrades. rewrite filteredTrades_app. apply filter_app.
Qed.

(** The two filters commute: the filled records of the selection are
    the selection of the filled records. *)
Lemma filledTrades_swap (H : list AnalyticsTrade.t) :
  filledTrades sel H = filteredTrades sel (filter is_filled H).
Proof.
  unfold filledTrades, filteredTrades. destruct sel as [s|]; [|reflexivity].
  destruct (Js.truthy s); [apply filter_swap | reflexivity].
Qed.

Lemma filledTrades_unfilled (p : AnalyticsTrade.t) :
  is_filled p = false -> filledTrades sel [p] = [].
Proof.
  intros Hp. rewrite filledTrades_swap. simpl. rewrite Hp.
  unfold filteredTrades. destruct sel as [s|]; [|reflexivity].
  destruct (Js.truthy s); reflexivity.
Qed.

(** A record that is not FILLED can sit anywhere in the history without
    showing among the filled ones. *)
Lemma filledTrades_insert_unfilled (H1 H2 : list AnalyticsTrade.t) p :
  is_filled p = false ->
  filledTrades sel (H1 ++ p :: H2) = filledTrades sel (H1 ++ H2).
Proof.
  intros Hp. change (p :: H2) with ([p] ++ H2).
  rewrite !filledTrades_app, (filledTrades_unfilled p Hp). reflexivity.
Qed.

Lemma filledTrades_all_filled (H : list AnalyticsTrade.t) :
  Forall (fun t => AnalyticsTrade.status t = "FILLED"%string)
         (filledTrades sel H).
Proof.
  apply Forall_forall. intros t Hin. unfold filledTrades in Hin.
  apply filter_In in Hin. destruct Hin as [_ Hf].
  apply String.eqb_eq. exact Hf.
Qed.

Lemma filledTrades_length_le (H : list AnalyticsTrade.t) :
  (List.length (filledTrades sel H) <= List.length (filteredTrades sel H))%nat.
Proof. apply filter_length_le. Qed.

(** Selecting nothing over the filled records of a selection gives them
    back. *)
Lemma filledTrades_None_filled (H : list AnalyticsTrade.t) :
  filledTrades None (filledTrades sel H) = filledTrades sel H.
Proof. unfold filledTrades at 1. simpl. apply filter_idem. Qed.

End AnalyticsFacts.

Lemma pending_not_filled (p : AnalyticsTrade.t) :
  AnalyticsTrade.status p = "PENDING"%string -> Analytics.is_filled p = false.
Proof. intros Hp. unfold Analytics.is_filled. rewrite Hp. reflexivity. Qed.

Section JsExamples.

(** [toFixed] and [parseFloat] on values of the kinds the pages meet. *)
Example toFixed_two_thirds : Js.toFixed 1 ((2 # 3) * 100)%Q = "66.7"%string.
Proof. vm_compute. reflexivity. Qed.
Example toFixed_integer : Js.toFixed 2 5%Q = "5.00"%string.
Proof. vm_compute. reflexivity. Qed.
Example toFixed_small_negative : Js.toFixed 2 (-(1#1000))%Q = "-0.00"%string.
Proof. vm_compute. reflexivity. Qed.
Example toFixed_negative : Js.toFixed 4 (-(12345#1000))%Q = "-12.3450"%string.
Proof. vm_compute. reflexivity. Qed.
Example toFixed_half_up : Js.toFixed 0 (5#2)%Q = "3"%string.
Proof. vm_compute. reflexivity. Qed.
Example parseFloat_decimal : Js.parseFloat "1.5" = Js.Fin (3#2).
Proof. vm_compute. reflexivity. Qed.
Example parseFloat_empty : Js.parseFloat "" = Js.NaN.
Proof. vm_compute. reflexivity. Qed.
Example parseFloat_prefix : Js.parseFloat "  -2e1x" = Js.Fin (-20).
Proof. vm_compute. reflexivity. Qed.
Example parseFloat_letters : Js.parseFloat "abc" = Js.NaN.
Proof. vm_compute. reflexivity. Qed.
Example parseFloat_fraction_only : Js.parseFloat ".5" = Js.Fin (1#2).
Proof. vm_compute. reflexivity. Qed.
Example parseFloat_infinity : Js.parseFloat "-Infinity" = Js.NegInfinity.
Proof. vm_compute. reflexivity. Qed.

End JsExamples.

(* ================================================================== *)
(** ** Rounding to a double: order and accuracy *)
(* ================================================================== *)

Section DoubleRounding.

Import Js.
Local Open Scope Q_scope.

Lemma pow2_pos (k : Z) : 0 < pow2 k.
Proof. apply Qpower_0_lt. reflexivity. Qed.

Lemma pow2_add (a b : Z) : pow2 (a + b) == pow2 a * pow2 b.
Proof. apply Qpower_plus. discriminate. Qed.

Lemma pow2_le (a b : Z) : (a <= b)%Z -> pow2 a <= pow2 b.
Proof. intros H. apply Qpower_le_compat_l; [exact H | discriminate]. Qed.

Lemma pow2_int (a : Z) : (0 <= a)%Z -> pow2 a == inject_Z (2 ^ a).
Proof. intros H. unfold pow2. rewrite (Zpower_Qpower 2 a H). reflexivity. Qed.

Lemma Qmake_lt_int (n : Z) (d : positive) (L M : Z) :
  (n * L < M * Z.pos d)%Z -> (n # d) * inject_Z L < inject_Z M.
Proof. intros H. unfold Qlt. cbn. lia. Qed.

Lemma Qmake_ge_int (n : Z) (d : positive) (L M : Z) :
  (M * Z.pos d <= n * L)%Z -> inject_Z M <= (n # d) * inject_Z L.
Proof. intros H. unfold Qle. cbn. lia. Qed.

Lemma mul_pow2_lt (x y : Q) (k : Z) : x * pow2 k < y * pow2 k -> x < y.
Proof.
  intros H. pose proof (pow2_pos k) as Hk.
  destruct (Qlt_le_dec x y) as [Hlt|Hge]; [exact Hlt|].
  exfalso. apply (Qlt_not_le _ _ H). apply Qmult_le_compat_r; [exact Hge|].
  apply Qlt_le_weak. exact Hk.
Qed.

Lemma mul_pow2_le (x y : Q) (k : Z) : x * pow2 k <= y * pow2 k -> x <= y.
Proof.
  intros H. pose proof (pow2_pos k) as Hk.
  destruct (Qlt_le_dec y x) as [Hlt|Hge]; [|exact Hge].
  exfalso. apply (Qle_not_lt _ _ H). apply Qmult_lt_compat_r; assumption.
Qed.

Lemma binade_bounds (x : Q) :
  0 < x ->
  let k0 := (Z.log2 (Qnum x) - Z.log2 (Zpos (Qden x)))%Z in
  pow2 (k0 - 1) <= x /\ x < pow2 (k0 + 1).
Proof.
  intros Hx. destruct x as [n d]. cbn [Qnum Qden].
  assert (Hn : (0 < n)%Z) by (unfold Qlt in Hx; cbn in Hx; lia).
  pose proof (Z.log2_spec n Hn) as [Hn1 Hn2].
  pose proof (Z.log2_spec (Z.pos d) (Pos2Z.is_pos d)) as [Hd1 Hd2].
  pose proof (Z.log2_nonneg n) as Hln.
  pose proof (Z.log2_nonneg (Z.pos d)) as Hld.
  set (ln := Z.log2 n) in *. set (ld := Z.log2 (Z.pos d)) in *.
  cbn zeta. split.
  - apply (mul_pow2_le _ _ (ld + 1)).
    rewrite <- pow2_add. replace (ln - ld - 1 + (ld + 1))%Z with ln by lia.
    rewrite (pow2_int ln Hln), (pow2_int (ld + 1)) by lia.
    apply Qmake_ge_int.
    unfold Z.succ in *. nia.
  - apply (mul_pow2_lt _ _ ld).
    rewrite <- pow2_add. replace (ln - ld + 1 + ld)%Z with (ln + 1)%Z by lia.
    rewrite (pow2_int ld Hld), (pow2_int (ln + 1)) by lia.
    apply Qmake_lt_int.
    unfold Z.succ in *. nia.
Qed.

(** A positive number lies in the binade that [binade] names. *)
Lemma binade_spec (x : Q) :
  0 < x -> pow2 (binade x) <= x /\ x < pow2 (binade x + 1).
Proof.
  intros Hx. destruct (binade_bounds x Hx) as [Hlo Hhi]. cbn zeta in Hlo, Hhi.
  unfold binade.
  set (k0 := (Z.log2 (Qnum x) - Z.log2 (Z.pos (Qden x)))%Z) in *.
  destruct (Qle_bool (pow2 k0) x) eqn:Hk.
  - split; [apply Qle_bool_iff; exact Hk | exact Hhi].
  - split; [exact Hlo|].
    replace (k0 - 1 + 1)%Z with k0 by lia.
    apply Qnot_le_lt. intros H. apply Qle_bool_iff in H. congruence.
Qed.

Lemma binade_le (x y : Q) : 0 < x -> x <= y -> (binade x <= binade y)%Z.
Proof.
  intros Hx Hxy.
  assert (Hy : 0 < y) by (eapply Qlt_le_trans; eassumption).
  destruct (binade_spec x Hx) as [Hx1 _].
  destruct (binade_spec y Hy) as [_ Hy2].
  destruct (Z_le_gt_dec (binade x) (binade y)) as [H|H]; [exact H|].
  exfalso.
  assert (Hp : pow2 (binade y + 1) <= pow2 (binade x)) by (apply pow2_le; lia).
  apply (Qlt_irrefl y).
  eapply Qlt_le_trans; [exact Hy2|].
  eapply Qle_trans; [exact Hp|]. eapply Qle_trans; eassumption.
Qed.

Ltac compare_cases :=
  repeat match goal with
  | H : (_ ?= _) = Eq |- _ => apply Qeq_alt in H
  | H : (_ ?= _) = Lt |- _ => apply Qlt_alt in H
  | H : (_ ?= _) = Gt |- _ => apply Qgt_alt in H
  end.

Lemma round_half_even_bounds (q : Q) :
  (Qfloor q <= round_half_even q <= Qfloor q + 1)%Z.
Proof.
  unfold round_half_even.
  destruct (Qcompare (q - inject_Z (Qfloor q)) (1 # 2));
    [destruct (Z.even (Qfloor q))|..]; lia.
Qed.

Lemma round_half_even_int (n : Z) : round_half_even (inject_Z n) = n.
Proof.
  unfold round_half_even. rewrite Qfloor_Z.
  assert (H : inject_Z n - inject_Z n == 0) by ring.
  rewrite (Qcompare_comp _ _ H (1 # 2) (1 # 2) (Qeq_refl _)). reflexivity.
Qed.

Lemma round_half_even_le (p q : Q) :
  p <= q -> (round_half_even p <= round_half_even q)%Z.
Proof.
  intros Hpq.
  pose proof (Qfloor_resp_le p q Hpq) as Hf.
  pose proof (round_half_even_bounds p) as Hp.
  pose proof (round_half_even_bounds q) as Hq.
  destruct (Z.eq_dec (Qfloor p) (Qfloor q)) as [He|Hne]; [|lia].
  unfold round_half_even. rewrite He.
  destruct (Qcompare (p - inject_Z (Qfloor q)) (1 # 2)) eqn:Cp;
    destruct (Qcompare (q - inject_Z (Qfloor q)) (1 # 2)) eqn:Cq;
    try (destruct (Z.even (Qfloor q))); try lia; exfalso;
    compare_cases; lra.
Qed.

(** The nearest integer is within one half. *)
Lemma round_half_even_near (q : Q) :
  - (1 # 2) <= inject_Z (round_half_even q) - q <= 1 # 2.
Proof.
  pose proof (Qfloor_le q) as Hlo. pose proof (Qlt_floor q) as Hhi.
  rewrite inject_Z_plus in Hhi. change (inject_Z 1) with 1 in Hhi.
  unfold round_half_even.
  destruct (Qcompare (q - inject_Z (Qfloor q)) (1 # 2)) eqn:C;
    [destruct (Z.even (Qfloor q))|..];
    rewrite ?inject_Z_plus; change (inject_Z 1) with 1;
    compare_cases; split; lra.
Qed.

Lemma Qdiv_pow2 (x : Q) (e : Z) : x / pow2 e * pow2 e == x.
Proof.
  pose proof (pow2_pos e) as He. field. intros H0. rewrite H0 in He.
  exact (Qlt_irrefl 0 He).
Qed.

Lemma round_positive_lower (x : Q) :
  0 < x -> pow2 (binade x) <= round_positive x.
Proof.
  intros Hx. destruct (binade_spec x Hx) as [Hlo _]. unfold round_positive.
  set (k := binade x) in *. set (e := (k - 52)%Z).
  assert (H52 : inject_Z (2 ^ 52) <= x / pow2 e).
  { apply (mul_pow2_le _ _ e). rewrite Qdiv_pow2.
    rewrite <- (pow2_int 52) by lia. rewrite <- pow2_add.
    replace (52 + e)%Z with k by (unfold e; lia). exact Hlo. }
  apply round_half_even_le in H52. rewrite round_half_even_int in H52.
  assert (Hk : pow2 k == inject_Z (2 ^ 52) * pow2 e).
  { rewrite <- (pow2_int 52) by lia. rewrite <- pow2_add.
    replace (52 + e)%Z with k by (unfold e; lia). reflexivity. }
  rewrite Hk. apply Qmult_le_compat_r.
  - rewrite <- Zle_Qle. exact H52.
  - apply Qlt_le_weak, pow2_pos.
Qed.

Lemma round_positive_upper (x : Q) :
  0 < x -> round_positive x <= pow2 (binade x + 1).
Proof.
  intros Hx. destruct (binade_spec x Hx) as [_ Hhi]. unfold round_positive.
  set (k := binade x) in *. set (e := (k - 52)%Z).
  assert (H53 : x / pow2 e <= inject_Z (2 ^ 53)).
  { apply (mul_pow2_le _ _ e). rewrite Qdiv_pow2.
    rewrite <- (pow2_int 53) by lia. rewrite <- pow2_add.
    replace (53 + e)%Z with (k + 1)%Z by (unfold e; lia).
    apply Qlt_le_weak. exact Hhi. }
  apply round_half_even_le in H53. rewrite round_half_even_int in H53.
  assert (Hk : pow2 (k + 1) == inject_Z (2 ^ 53) * pow2 e).
  { rewrite <- (pow2_int 53) by lia. rewrite <- pow2_add.
    replace (53 + e)%Z with (k + 1)%Z by (unfold e; lia). reflexivity. }
  rewrite Hk. apply Qmult_le_compat_r.
  - rewrite <- Zle_Qle. exact H53.
  - apply Qlt_le_weak, pow2_pos.
Qed.

Lemma round_positive_le (x y : Q) :
  0 < x -> x <= y -> round_positive x <= round_positive y.
Proof.
  intros Hx Hxy.
  assert (Hy : 0 < y) by (eapply Qlt_le_trans; eassumption).
  pose proof (binade_le x y Hx Hxy) as Hk.
  destruct (Z.eq_dec (binade x) (binade y)) as [He|Hne].
  - unfold round_positive. rewrite He.
    apply Qmult_le_compat_r; [|apply Qlt_le_weak, pow2_pos].
    rewrite <- Zle_Qle. apply round_half_even_le.
    apply (mul_pow2_le _ _ (binade y - 52)). rewrite !Qdiv_pow2. exact Hxy.
  - eapply Qle_trans; [apply round_positive_upper; exact Hx|].
    eapply Qle_trans; [|apply round_positive_lower; exact Hy].
    apply pow2_le. lia.
Qed.

Lemma round_positive_near (x : Q) :
  0 < x ->
  - (x * pow2 (-53)) <= round_positive x - x <= x * pow2 (-53).
Proof.
  intros Hx. destruct (binade_spec x Hx) as [Hlo _].
  unfold round_positive. set (k := binade x) in *. set (e := (k - 52)%Z).
  pose proof (round_half_even_near (x / pow2 e)) as [Hn1 Hn2].
  set (m := inject_Z (round_half_even (x / pow2 e))) in *.
  pose proof (pow2_pos e) as He.
  assert (Hx' : x == x / pow2 e * pow2 e) by (symmetry; apply Qdiv_pow2).
  assert (Hhalf : (1 # 2) * pow2 e <= x * pow2 (-53)).
  { assert (E : (1 # 2) * pow2 e == pow2 k * pow2 (-53)).
    { rewrite <- pow2_add. replace (k + -53)%Z with (-1 + e)%Z by (unfold e; lia).
      rewrite pow2_add. reflexivity. }
    rewrite E. apply Qmult_le_compat_r; [exact Hlo|].
    apply Qlt_le_weak, pow2_pos. }
  set (y := x / pow2 e) in *.
  assert (D : m * pow2 e - x == (m - y) * pow2 e) by (rewrite Hx' at 1; ring).
  rewrite D. split.
  - apply Qle_trans with (- ((1 # 2) * pow2 e)); [lra|].
    assert (G : - ((1 # 2) * pow2 e) == (- (1 # 2)) * pow2 e) by ring.
    rewrite G. apply Qmult_le_compat_r; [exact Hn1 | lra].
  - apply Qle_trans with ((1 # 2) * pow2 e); [|exact Hhalf].
    apply Qmult_le_compat_r; [exact Hn2 | lra].
Qed.

Lemma round64_positive (x : Q) :
  0 < x -> round64 x == round_positive (Qred x) /\ 0 < round64 x.
Proof.
  intros Hx. unfold round64.
  assert (Hr : 0 < Qred x) by (rewrite Qred_correct; exact Hx).
  assert (Hc : Qcompare (Qred x) 0 = Gt) by (apply Qgt_alt; exact Hr).
  rewrite Hc, Qred_correct. split; [reflexivity|].
  eapply Qlt_le_trans; [apply (pow2_pos (binade (Qred x)))|].
  apply round_positive_lower. exact Hr.
Qed.

Lemma round64_zero (x : Q) : x == 0 -> round64 x = 0.
Proof.
  intros Hx. unfold round64.
  assert (Hc : Qcompare (Qred x) 0 = Eq).
  { apply Qeq_alt. rewrite Qred_correct. exact Hx. }
  rewrite Hc. reflexivity.
Qed.

(** The rounding depends on the number, not on the fraction that denotes
    it. *)
Lemma round64_Qeq (x y : Q) : x == y -> round64 x = round64 y.
Proof.
  intros Hxy. unfold round64. rewrite (Qred_complete x y Hxy). reflexivity.
Qed.

Lemma round64_nonneg (x : Q) : 0 <= x -> 0 <= round64 x.
Proof.
  intros Hx. destruct (Qlt_le_dec 0 x) as [Hpos|Hle].
  - apply Qlt_le_weak. apply round64_positive. exact Hpos.
  - rewrite (round64_zero x); [apply Qle_refl|].
    apply Qle_antisym; assumption.
Qed.

(** Rounding keeps the order. *)
Lemma round64_le (x y : Q) : 0 <= x -> x <= y -> round64 x <= round64 y.
Proof.
  intros Hx Hxy. destruct (Qlt_le_dec 0 x) as [Hpos|Hle].
  - assert (Hy : 0 < y) by (eapply Qlt_le_trans; eassumption).
    destruct (round64_positive x Hpos) as [Ex _].
    destruct (round64_positive y Hy) as [Ey _].
    rewrite Ex, Ey. apply round_positive_le.
    + rewrite Qred_correct. exact Hpos.
    + rewrite !Qred_correct. exact Hxy.
  - rewrite (round64_zero x) by (apply Qle_antisym; assumption).
    apply round64_nonneg. eapply Qle_trans; eassumption.
Qed.

(** Rounding moves a number by at most the fraction [2^-53] of it. *)
Lemma round64_near (x : Q) :
  0 <= x -> - (x * pow2 (-53)) <= round64 x - x <= x * pow2 (-53).
Proof.
  intros Hx. destruct (Qlt_le_dec 0 x) as [Hpos|Hle].
  - destruct (round64_positive x Hpos) as [E _].
    assert (Hr : 0 < Qred x) by (rewrite Qred_correct; exact Hpos).
    pose proof (round_positive_near (Qred x) Hr) as [Hn1 Hn2].
    pose proof (Qred_correct x) as Ex.
    assert (Ep : Qred x * pow2 (-53) == x * pow2 (-53))
      by (rewrite Ex; reflexivity).
    rewrite E. set (r := round_positive (Qred x)) in *.
    set (a := Qred x * pow2 (-53)) in *. set (b := x * pow2 (-53)) in *.
    set (y := Qred x) in *. split; lra.
  - assert (Hz : x == 0) by (apply Qle_antisym; assumption).
    rewrite (round64_zero x Hz). rewrite Hz. split; discriminate.
Qed.

Lemma round64_one : round64 1 = 1.
Proof. vm_compute. reflexivity. Qed.

Lemma round64_hundred : round64 100 = 100.
Proof. vm_compute. reflexivity. Qed.

(** 0.1 and 0.2875 as doubles. *)
Example round64_tenth :
  round64 (1 # 10) = 3602879701896397 # 36028797018963968.
Proof. vm_compute. reflexivity. Qed.
Example round64_23_of_80 :
  round64 (23 # 80) = 2589569785738035 # 9007199254740992.
Proof. vm_compute. reflexivity. Qed.

End DoubleRounding.

Section FillRate.

Import Analytics.
Local Open Scope Q_scope.

Lemma len_nonneg (l : list AnalyticsTrade.t) : 0 <= len l.
Proof.
  unfold len. change 0%Q with (inject_Z 0). rewrite <- Zle_Qle. lia.
Qed.

Lemma len_pos (l : list AnalyticsTrade.t) :
  (0 < List.length l)%nat -> 0 < len l.
Proof.
  intros Hl. unfold len. change 0%Q with (inject_Z 0).
  rewrite <- Zlt_Qlt. lia.
Qed.

Lemma len_le (l1 l2 : list AnalyticsTrade.t) :
  (List.length l1 <= List.length l2)%nat -> len l1 <= len l2.
Proof. intros Hl. unfold len. rewrite <- Zle_Qle. lia. Qed.

Lemma fillRatio_range sel (H : list AnalyticsTrade.t) :
  (0 < List.length (filteredTrades sel H))%nat ->
  0 <= len (filledTrades sel H) / len (filteredTrades sel H) <= 1.
Proof.
  intros Hpos.
  pose proof (len_pos _ Hpos) as Hb.
  pose proof (len_nonneg (filledTrades sel H)) as Ha.
  pose proof (len_le _ _ (filledTrades_length_le sel H)) as Hab.
  set (a := len (filledTrades sel H)) in *.
  set (b := len (filteredTrades sel H)) in *.
  split.
  - apply Qle_shift_div_l; [exact Hb | lra].
  - apply Qle_shift_div_r; [exact Hb | lra].
Qed.

Lemma fillRatePercent_range sel (H : list AnalyticsTrade.t) :
  (0 < List.length (filteredTrades sel H))%nat ->
  0 <= fillRatePercent sel H <= 100.
Proof.
  intros Hpos. unfold fillRatePercent.
  destruct (fillRatio_range sel H Hpos) as [H0 H1].
  set (q := len (filledTrades sel H) / len (filteredTrades sel H)) in *.
  pose proof (round64_nonneg q H0) as R0.
  pose proof (round64_le q 1 H0 H1) as R1. rewrite round64_one in R1.
  split.
  - apply round64_nonneg. lra.
  - apply Qle_trans with (Js.round64 100).
    + apply round64_le; lra.
    + rewrite round64_hundred. apply Qle_refl.
Qed.

(** The two roundings move the rate by less than [2^-45]. *)
Lemma fillRatePercent_near sel (H : list AnalyticsTrade.t) :
  (0 < List.length (filteredTrades sel H))%nat ->
  Qabs (fillRatePercent sel H
        - len (filledTrades sel H) / len (filteredTrades sel H) * 100)
  <= Js.pow2 (-45).
Proof.
  intros Hpos. unfold fillRatePercent.
  destruct (fillRatio_range sel H Hpos) as [H0 H1].
  set (q := len (filledTrades sel H) / len (filteredTrades sel H)) in *.
  pose proof (round64_nonneg q H0) as R0.
  pose proof (round64_le q 1 H0 H1) as R1. rewrite round64_one in R1.
  pose proof (round64_near q H0) as [N1 N2].
  set (r := Js.round64 q) in *.
  assert (Hr : 0 <= r * 100) by lra.
  pose proof (round64_near (r * 100) Hr) as [M1 M2].
  set (p := Js.round64 (r * 100)) in *.
  pose proof (pow2_pos (-53)) as Hu.
  assert (Hu45 : Js.pow2 (-45) == 256 * Js.pow2 (-53))
    by (vm_compute; reflexivity).
  set (u := Js.pow2 (-53)) in *.
  assert (Q1 : q * u <= u).
  { rewrite <- (Qmult_1_l u) at 2. apply Qmult_le_compat_r; lra. }
  assert (Q2 : r * 100 * u <= 100 * u).
  { apply Qmult_le_compat_r; lra. }
  apply Qabs_Qle_condition. rewrite Hu45.
  set (qu := q * u) in *. set (ru := r * 100 * u) in *.
  split; lra.
Qed.

Lemma toFixed_scaled_range (x : Q) :
  0 <= x <= 100 -> (0 <= Js.toFixed_scaled 1 x <= 1000)%Z.
Proof.
  intros [Hlo Hhi]. unfold Js.toFixed_scaled.
  rewrite (Qabs_pos x Hlo).
  change (inject_Z (Js.pow10 1)) with (inject_Z 10).
  split.
  - change 0%Z with (Qfloor (inject_Z 0)) at 1. apply Qfloor_resp_le.
    change (inject_Z 0) with 0%Q. change (inject_Z 10) with 10%Q. lra.
  - change 1000%Z with (Qfloor (100 * 10 + (1 # 2))).
    apply Qfloor_resp_le. change (inject_Z 10) with 10%Q. lra.
Qed.

End FillRate.

Section AnalyticsClaims.

Import Analytics.

(** A filled order of slippage 4, one of slippage 6 and a pending order:
    three trades, a fill rate of 66.7 and an average slippage of 5.00. *)
Example stats_two_fills_one_pending :
  stats_local None Samples.two_fills_one_pending
  = {| totalTrades := 3;
       fillRate := "66.7";
       totalQuantity := "2.0000";
       avgSlippage := "5.00";
       buyTrades := 2;
       sellTrades := 1 |}.
Proof. vm_compute. reflexivity. Qed.

(** C1. The average slippage is computed from the FILLED records alone:
    appending a PENDING record to the history leaves [avgSlippage] as it
    was, the statistic is the one of the filled records taken by
    themselves, and it is ['0'] when no record is FILLED. *)
Theorem C1_avgSlippage_filled_only :
  forall (sel : option string) (H : list AnalyticsTrade.t)
         (p : AnalyticsTrade.t),
    AnalyticsTrade.status p = "PENDING"%string ->
    avgSlippage (stats_local sel (H ++ [p])) = avgSlippage (stats_local sel H)
    /\ avgSlippage (stats_local sel H)
       = avgSlippage (stats_local None (filledTrades sel H))
    /\ (filledTrades sel H = [] ->
        avgSlippage (stats_local sel H) = "0"%string).
Proof.
  intros sel H p Hp. apply pending_not_filled in Hp.
  unfold stats_local; cbn [avgSlippage].
  repeat split.
  - rewrite filledTrades_app, (filledTrades_unfilled sel p Hp), app_nil_r.
    reflexivity.
  - rewrite filledTrades_None_filled. reflexivity.
  - intros Hnone. rewrite Hnone. reflexivity.
Qed.

Lemma C1_avgSlippage_witness :
  avgSlippage
    (stats_local None
       (firstn 2 Samples.two_fills_one_pending
          ++ [Samples.pending 3 "ETH-USD" "BUY" "2024-01-03T10:00:00Z"]))
  = avgSlippage (stats_local None (firstn 2 Samples.two_fills_one_pending))
  /\ avgSlippage
       (stats_local None [Samples.pending 3 "ETH-USD" "BUY" "2024-01-03T10:00:00Z"])
     = "0"%string.
Proof.
  split.
  - exact (proj1 (C1_avgSlippage_filled_only None
                    (firstn 2 Samples.two_fills_one_pending)
                    (Samples.pending 3 "ETH-USD" "BUY" "2024-01-03T10:00:00Z")
                    eq_refl)).
  - exact (proj2 (proj2 (C1_avgSlippage_filled_only None
                    [Samples.pending 3 "ETH-USD" "BUY" "2024-01-03T10:00:00Z"]
                    (Samples.pending 3 "ETH-USD" "BUY" "2024-01-03T10:00:00Z")
                    eq_refl)) eq_refl).
Defined.

(** Of 80 orders 23 are filled: the quotient 0.2875 is not a double, the
    double next to it is smaller, and its product with 100 rounds to a
    number below 28.75, so the rate reads 28.7; computed exactly it would
    read 28.8. *)
Example fillRate_23_of_80 :
  fillRate (stats_local None Samples.twenty_three_of_eighty) = "28.7"%string
  /\ Js.toFixed 1 ((23 # 80) * 100)%Q = "28.8"%string.
Proof. vm_compute. split; reflexivity. Qed.

(** C5. The fill rate is [filledCount / totalCount * 100], [totalCount]
    counting the records of the selection (all of the history when nothing
    is selected) and [filledCount] those of them whose status is FILLED,
    computed as the program computes it: in doubles, the quotient rounded
    and then its product with 100.  The number differs from the exact
    percentage by less than [2^-45], lies between 0 and 100, and is shown
    with one decimal, between 0.0 and 100.0; the rate reads ['0'] when the
    history, or the selection from it, is empty. *)
Theorem C5_fillRate_range :
  forall (sel : option string) (H : list AnalyticsTrade.t),
    let selected := filteredTrades sel H in
    let totalCount := inject_Z (Z.of_nat (List.length selected)) in
    let filledCount :=
      inject_Z
        (Z.of_nat
           (List.length
              (filter
                 (fun t => String.eqb (AnalyticsTrade.status t) "FILLED")
                 selected))) in
    fillRate (stats_local sel []) = "0"%string
    /\ filteredTrades None H = H
    /\ (forall s, s <> ""%string ->
        filteredTrades (Some s) H
        = filter (fun t => String.eqb (AnalyticsTrade.symbol t) s) H)
    /\ (List.length selected = 0%nat ->
        fillRate (stats_local sel H) = "0"%string)
    /\ ((0 < List.length selected)%nat ->
        fillRate (stats_local sel H) = Js.toFixed 1 (fillRatePercent sel H)
        /\ fillRatePercent sel H
           = Js.round64 (Js.round64 (filledCount / totalCount) * 100)%Q
        /\ (Qabs (fillRatePercent sel H - filledCount / totalCount * 100)
            <= Js.pow2 (-45))%Q
        /\ (0 <= fillRatePercent sel H <= 100)%Q
        /\ 0 <= Js.toFixed_scaled 1 (fillRatePercent sel H) <= 1000).
Proof.
  intros sel H selected totalCount filledCount.
  split; [|split; [reflexivity|split; [|split]]].
  - unfold stats_local; cbn [fillRate].
    replace (filteredTrades sel []) with (@nil AnalyticsTrade.t);
      [reflexivity|].
    unfold filteredTrades. destruct sel as [s|]; [|reflexivity].
    destruct (Js.truthy s); reflexivity.
  - intros s Hs. unfold filteredTrades.
    destruct s; [congruence | reflexivity].
  - intros Hz. unfold stats_local; cbn [fillRate].
    unfold selected in Hz. rewrite Hz. reflexivity.
  - intros Hpos. unfold selected in Hpos.
    pose proof (fillRatePercent_range sel H Hpos) as Hr.
    split; [|split; [|split; [|split]]].
    + unfold stats_local; cbn [fillRate].
      apply Nat.ltb_lt in Hpos. rewrite Hpos. reflexivity.
    + reflexivity.
    + exact (fillRatePercent_near sel H Hpos).
    + exact Hr.
    + apply toFixed_scaled_range; exact Hr.
Qed.

Lemma C5_fillRate_witness :
  fillRate (stats_local (Some "SOL-USD"%string) Samples.two_fills_one_pending)
  = "0"%string
  /\ (0 <= fillRatePercent None Samples.two_fills_one_pending <= 100)%Q.
Proof.
  split.
  - exact (proj1 (proj2 (proj2 (proj2
             (C5_fillRate_range (Some "SOL-USD"%string)
                Samples.two_fills_one_pending)))) eq_refl).
  - refine (proj1 (proj2 (proj2 (proj2 (proj2 (proj2 (proj2 (proj2
             (C5_fillRate_range None Samples.two_fills_one_pending)))) _))))).
    vm_compute. lia.
Defined.

(** C9 does not hold for the empty symbol: a selection of [""] is falsy,
    so nothing is filtered and both records are counted, although only
    one of them carries the symbol [""]. *)
Lemma C9_empty_symbol_counterexample :
  totalTrades (stats_local (Some ""%string) Samples.with_empty_symbol) = 2%nat
  /\ totalTrades
       (stats_local None
          (filter (fun t => String.eqb (AnalyticsTrade.symbol t) "")
                  Samples.with_empty_symbol)) = 1%nat
  /\ stats_local (Some ""%string) Samples.with_empty_symbol
     <> stats_local None
          (filter (fun t => String.eqb (AnalyticsTrade.symbol t) "")
                  Samples.with_empty_symbol).
Proof.
  split; [reflexivity|]. split; [reflexivity|].
  intros E. apply (f_equal totalTrades) in E. vm_compute in E. discriminate.
Qed.

(** C9, amended. For every history and every symbol other than the empty
    string, the statistics under that selection are the statistics, with
    nothing selected, of the records that carry the symbol. *)
Theorem C9_symbol_filter :
  forall (H : list AnalyticsTrade.t) (S : string),
    S <> ""%string ->
    stats_local (Some S) H
    = stats_local None
        (filter (fun t => String.eqb (AnalyticsTrade.symbol t) S) H).
Proof.
  intros H S HS.
  assert (Ht : Js.truthy S = true) by (destruct S; [congruence | reflexivity]).
  unfold stats_local, fillRatePercent, filledTrades, filteredTrades.
  rewrite Ht. reflexivity.
Qed.

Lemma C9_symbol_filter_witness :
  stats_local (Some "BTC-USD"%string) Samples.two_fills_one_pending
  = stats_local None
      (filter (fun t => String.eqb (AnalyticsTrade.symbol t) "BTC-USD")
              Samples.two_fills_one_pending).
Proof.
  apply (C9_symbol_filter Samples.two_fills_one_pending "BTC-USD").
  discriminate.
Defined.

(** C4. When [/me/orders] answers [null], [fetchAllTrades] completes
    without throwing and leaves an empty array in [trades], no error and no
    loading flag; every derived statistic then takes its zero value and
    the slippage chart is empty. *)
Theorem C4_empty_account :
  forall (s : Store.TradingStore) (sel : option string)
         (fmt : string -> string),
    let r := Store.fetchAllTrades (inr None) s in
    Store.completion r = Resolved
    /\ Store.trades (Store.after r) = []
    /\ Store.error (Store.after r) = None
    /\ Store.isLoading (Store.after r) = false
    /\ stats_after_fetch (inr None) sel s
       = {| totalTrades := 0;
            fillRate := "0";
            totalQuantity := "0.0000";
            avgSlippage := "0";
            buyTrades := 0;
            sellTrades := 0 |}
    /\ slippageChartData fmt sel (Store.trades (Store.after r))
       = {| labels := []; data := [] |}.
Proof.
  intros s sel fmt. cbn. repeat split.
  - unfold stats_after_fetch. cbn.
    destruct sel as [x|]; [destruct x|]; vm_compute; reflexivity.
  - destruct sel as [x|]; [destruct x|]; vm_compute; reflexivity.
Qed.

End AnalyticsClaims.

Section ChartClaims.

Import Analytics TimeOrder.

Lemma chronological_firstn (n : nat) (l : list AnalyticsTrade.t) :
  chronological l = true -> chronological (firstn n l) = true.
Proof.
  revert n. induction l as [|a l IH]; intros n Hl.
  - rewrite firstn_nil. reflexivity.
  - destruct n as [|n]; [reflexivity|].
    destruct l as [|b l]; [destruct n; reflexivity|].
    cbn [chronological] in Hl. apply andb_prop in Hl. destruct Hl as [Hab Hr].
    specialize (IH n Hr).
    destruct n as [|n]; [reflexivity|].
    cbn [firstn chronological] in *. rewrite Hab. exact IH.
Qed.

Lemma rev_slice_last (n : nat) (l : list AnalyticsTrade.t) :
  rev (slice_last n l) = firstn (Nat.min n (List.length l)) (rev l).
Proof.
  unfold slice_last. rewrite firstn_rev. f_equal. f_equal. lia.
Qed.

(** C3. The window of the slippage chart is cut by position, not by
    time.  Of a history delivered oldest first the chart shows the newest
    fill first, so the series is not in chronological order; of a history
    of 21 fills delivered newest first it shows the 20 oldest, and the most
    recent fill is the one left out. *)
Theorem C3_slippage_window_not_by_time :
  (slippageWindow None Samples.oldest_first
   = [Samples.fill_of_day 2; Samples.fill_of_day 1]
   /\ data (slippageChartData (fun s => s) None Samples.oldest_first)
      = [2; 1]%Q
   /\ chronological (slippageWindow None Samples.oldest_first) = false)
  /\ (slippageWindow None Samples.newest_first
      = map Samples.fill_of_day (seq 1 20)
      /\ shown (slippageWindow None Samples.newest_first)
               (Samples.fill_of_day 21) = false
      /\ most_recent_of (filledTrades None Samples.newest_first)
                        (slippageWindow None Samples.newest_first) = false).
Proof. vm_compute. repeat split; reflexivity. Qed.

(** What the slippage chart does show.  The series is taken from the
    FILLED records of the selection only, records of another status being
    dropped before the window is cut; it has [min 20 n] entries for [n]
    filled records, hence never more than 20; and it is the last 20 filled
    records by their position in the history, shown in the reverse of
    that order, which is oldest first if the filled records come newest
    first in the history.  A record that is not FILLED, wherever it sits in
    the history, changes nothing. *)
Theorem slippage_window_positional :
  forall (fmt : string -> string) (sel : option string)
         (H : list AnalyticsTrade.t),
    let chart := slippageChartData fmt sel H in
    let window := slippageWindow sel H in
    data chart
      = map (fun t => Js.or_zero (AnalyticsTrade.slippage_bps t)) window
    /\ List.length (data chart)
       = Nat.min 20 (List.length (filledTrades sel H))
    /\ List.length (labels chart) = List.length (data chart)
    /\ (List.length (data chart) <= 20)%nat
    /\ Forall (fun t => AnalyticsTrade.status t = "FILLED"%string) window
    /\ (exists older,
          filledTrades sel H = older ++ rev window
          /\ List.length older = (List.length (filledTrades sel H) - 20)%nat)
    /\ window = slippageWindow None (filledTrades sel H)
    /\ (chronological (rev (filledTrades sel H)) = true ->
        chronological window = true)
    /\ (forall H1 H2 p,
          AnalyticsTrade.status p <> "FILLED"%string ->
          slippageChartData fmt sel (H1 ++ p :: H2)
          = slippageChartData fmt sel (H1 ++ H2)).
Proof.
  intros fmt sel H chart window.
  assert (Hlen : List.length window
                 = Nat.min 20 (List.length (filledTrades sel H))).
  { unfold window, slippageWindow.
    rewrite length_rev. apply slice_last_length. }
  split; [reflexivity|].
  split; [unfold chart, slippageChartData; cbn [data]; rewrite length_map; exact Hlen|].
  split; [unfold chart, slippageChartData; cbn [data labels]; rewrite !length_map; reflexivity|].
  split; [unfold chart, slippageChartData; cbn [data]; rewrite length_map; fold window; lia|].
  split.
  { apply Forall_forall. intros t Hin.
    unfold window, slippageWindow in Hin.
    apply in_rev, slice_last_incl in Hin.
    pose proof (filledTrades_all_filled sel H) as Hall.
    rewrite Forall_forall in Hall. apply Hall. exact Hin. }
  split.
  { exists (firstn (List.length (filledTrades sel H) - 20) (filledTrades sel H)).
    split.
    - unfold window, slippageWindow, slice_last.
      rewrite rev_involutive, firstn_skipn. reflexivity.
    - rewrite length_firstn. lia. }
  split.
  { unfold window, slippageWindow.
    rewrite filledTrades_None_filled. reflexivity. }
  split.
  { intros Hnewest. unfold window, slippageWindow.
    rewrite rev_slice_last. apply chronological_firstn. exact Hnewest. }
  intros H1 H2 p Hp.
  assert (Hf : is_filled p = false).
  { unfold is_filled. apply String.eqb_neq. exact Hp. }
  unfold slippageChartData, slippageWindow.
  rewrite (filledTrades_insert_unfilled sel H1 H2 p Hf). reflexivity.
Qed.

Lemma slippage_window_positional_witness :
  slippageChartData (fun s => s) None
    (firstn 2 Samples.two_fills_one_pending
       ++ Samples.pending 3 "ETH-USD" "BUY" "2024-01-03T10:00:00Z" :: [])
  = slippageChartData (fun s => s) None
      (firstn 2 Samples.two_fills_one_pending ++ [])
  /\ chronological (slippageWindow None Samples.newest_first) = true.
Proof.
  split.
  - refine (proj2 (proj2 (proj2 (proj2 (proj2 (proj2 (proj2 (proj2
              (slippage_window_positional (fun s => s) None []))))))))
              (firstn 2 Samples.two_fills_one_pending) []
              (Samples.pending 3 "ETH-USD" "BUY" "2024-01-03T10:00:00Z") _).
    discriminate.
  - refine (proj1 (proj2 (proj2 (proj2 (proj2 (proj2 (proj2 (proj2
              (slippage_window_positional (fun s => s) None
                 Samples.newest_first)))))))) _).
    vm_compute. reflexivity.
Defined.

End ChartClaims.

Section OrderBookClaims.

Import OrderBookView.

Lemma level_width_finite (m : MaxResult) (size : Q) :
  exists w, level_width m size = Some w.
Proof.
  destruct m as [|q]; cbn; [eexists; reflexivity|].
  destruct (Qle_bool q 0) eqn:Hle; cbn; [eexists; reflexivity|].
  unfold divide. destruct (Qeq_bool q 0) eqn:Heq.
  - apply Qeq_bool_iff in Heq.
    assert (Hq : (q <= 0)%Q) by (rewrite Heq; apply Qle_refl).
    apply Qle_bool_iff in Hq. congruence.
  - cbn. eexists; reflexivity.
Qed.

Lemma widths_finite (st : State) :
  Forall (fun w => w <> None) (widths (render st)).
Proof.
  apply Forall_forall. intros w Hin.
  assert (Hrows : forall m levels,
             In w (map width (map (row m) levels)) -> w <> None).
  { intros m levels Hw. rewrite map_map in Hw. apply in_map_iff in Hw.
    destruct Hw as [lv [Hw _]]. cbn in Hw.
    destruct (level_width_finite m (Js.nullish_zero (OrderLevel.size lv)))
      as [q Hq].
    rewrite Hq in Hw. subst w. discriminate. }
  unfold render in Hin.
  destruct (isLoading st && is_null (orderBook st)); [contradiction|].
  destruct (Js.truthy (error st)); [contradiction|].
  destruct (orderBook st) as [ob|]; [|contradiction].
  destruct (OrderBook.bids ob) as [bids|]; [|contradiction].
  destruct (OrderBook.asks ob) as [asks|]; [|contradiction].
  destruct ((List.length bids =? 0)%nat || (List.length asks =? 0)%nat);
    [contradiction|].
  cbn [widths] in Hin. apply in_app_or in Hin.
  destruct Hin as [Hin|Hin]; eapply Hrows; exact Hin.
Qed.

(** C6. A book with no bids or no asks is shown as incomplete and no
    width is computed for it; when no level has a positive size the
    maximum is [-Infinity] and every width is 0 without a division; and
    whatever the state, every width that is drawn is a finite number, so
    no division by zero took place. *)
Theorem C6_no_division_by_zero :
  forall (st : State),
    (forall ob,
        orderBook st = Some ob ->
        OrderBook.bids ob = Some [] \/ OrderBook.asks ob = Some [] ->
        widths (render st) = []
        /\ (error st = EmptyString -> render st = Incomplete))
    /\ (forall bids asks,
          positive_sizes bids = [] -> positive_sizes asks = [] ->
          maxSize bids asks = MinusInfinity
          /\ forall level, width (row (maxSize bids asks) level) = Some 0%Q)
    /\ (forall m size, exists w, level_width m size = Some w)
    /\ Forall (fun w => w <> None) (widths (render st)).
Proof.
  intros st. split; [|split; [|split]].
  - intros ob Hob Hside. unfold render. rewrite Hob.
    replace (isLoading st && is_null (Some ob)) with false
      by (cbn; rewrite andb_false_r; reflexivity).
    assert (Hinc :
      match OrderBook.bids ob, OrderBook.asks ob with
      | Some bids, Some asks =>
          if ((List.length bids =? 0)%nat || (List.length asks =? 0)%nat)
          then Incomplete
          else Book (Js.toFixed 2 (Js.nullish_zero (OrderBook.mid ob)))
                 (map (row (maxSize bids asks)) bids)
                 (map (row (maxSize bids asks)) asks)
      | _, _ => Incomplete
      end = Incomplete).
    { destruct Hside as [Hb|Ha].
      - rewrite Hb. destruct (OrderBook.asks ob); reflexivity.
      - rewrite Ha. destruct (OrderBook.bids ob) as [bids|]; [|reflexivity].
        cbn. rewrite orb_true_r. reflexivity. }
    rewrite Hinc. split.
    + destruct (Js.truthy (error st)); reflexivity.
    + intros Herr. rewrite Herr. reflexivity.
  - intros bids asks Hb Ha. unfold maxSize. rewrite Hb, Ha.
    split; reflexivity.
  - apply level_width_finite.
  - apply widths_finite.
Qed.

Lemma C6_no_division_by_zero_witness :
  render (mk (Some Samples.one_sided_book) false EmptyString) = Incomplete
  /\ maxSize [OrderLevel.mk BID (Some 99%Q) (Some 0%Q)]
             [OrderLevel.mk ASK (Some 101%Q) None] = MinusInfinity.
Proof.
  split.
  - refine (proj2 (proj1
             (C6_no_division_by_zero
                (mk (Some Samples.one_sided_book) false EmptyString))
             Samples.one_sided_book eq_refl (or_intror eq_refl)) eq_refl).
  - refine (proj1 (proj1 (proj2
             (C6_no_division_by_zero
                (mk (Some Samples.sizeless_book) false EmptyString)))
             [OrderLevel.mk BID (Some 99%Q) (Some 0%Q)]
             [OrderLevel.mk ASK (Some 101%Q) None] eq_refl eq_refl)).
Defined.

(** A book without a positive size: both widths are 0. *)
Example widths_sizeless_book :
  widths (render (mk (Some Samples.sizeless_book) false EmptyString))
  = [Some 0%Q; Some 0%Q].
Proof. vm_compute. reflexivity. Qed.

(** A book with positive sizes: the widths are shares of the largest one. *)
Example widths_full_book :
  widths (render (mk (Some Samples.full_book) false EmptyString))
  = [Some (Qmake 200 4); Some (Qmake 100 4); Some (Qmake 400 4)].
Proof. vm_compute. reflexivity. Qed.


(** What a failed fetch of the order book does to the state: it sets the
    error slot and clears the loading flag, and leaves the snapshot, like
    every other slot, as it was, in the store, which does not rethrow, and
    in the component.  The snapshot that was kept is drawn again when the
    next request starts and clears the error slot; the snapshot slot is
    empty afterwards only if it was empty before. *)
Theorem failed_fetch_keeps_snapshot :
  forall (symbol : string) (err : ApiError) (s : Store.TradingStore)
         (props : Props) (st : State),
    let r := Store.fetchOrderBook symbol (inl err) s in
    let st' := fst (fetchOrderBook props (inl err) st) in
    (Store.completion r = Resolved
     /\ Store.orderBook (Store.after r) = Store.orderBook s
     /\ (exists msg, Store.error (Store.after r) = Some msg)
     /\ Store.after r
        = Store.mk (Store.orderBook s) (Store.selectedSymbol s)
            (Store.selectedSide s) false (Store.error (Store.after r))
            (Store.trades s) (Store.stats s) (Store.lastOrder s)
            (Store.dashboardStats s)
     /\ (Store.orderBook (Store.after r) = None <-> Store.orderBook s = None))
    /\ (st' = mk (orderBook st) false "Failed to fetch order book"
        /\ (orderBook st' = None <-> orderBook st = None)
        /\ render st' = ErrorView "Failed to fetch order book"
        /\ render (fetch_begin st')
           = match orderBook st with
             | Some ob => render (mk (Some ob) false EmptyString)
             | None => Loading
             end).
Proof.
  intros symbol err s props st r st'. split.
  - unfold r, Store.fetchOrderBook. cbn.
    repeat split; try tauto. eexists; reflexivity.
  - unfold st', fetchOrderBook. cbn. repeat split; try tauto.
    destruct (orderBook st); reflexivity.
Qed.

(** A refresh that fails after one that succeeded. *)
Example stale_book_after_failure :
  let st1 :=
    fst (fetchOrderBook {| symbol := "BTC-USD"; onDataReceived := true |}
           (inr Samples.full_book) init) in
  let st2 :=
    fst (fetchOrderBook {| symbol := "BTC-USD"; onDataReceived := true |}
           (inl Samples.network_error) st1) in
  orderBook st2 = Some Samples.full_book
  /\ error st2 = "Failed to fetch order book"%string
  /\ render (fetch_begin st2) = render st1.
Proof. vm_compute. repeat split; reflexivity. Qed.

End OrderBookClaims.

Section TradeFormClaims.

Import TradeForm.

(** C2 does not hold for the limit price: a LIMIT order with a quantity
    above zero and a limit price of 0, or a negative one, raises no alert
    and is posted to [/trade/] as it is. *)
Lemma C2_limit_price_counterexample :
  snd (handleSubmit Samples.btc_form_props (inr Samples.pending_response)
         (mk BUY LIMIT "1" "0") Store.init)
  = [NetCall HttpPost "/trade/"
       (Some (TradeRequest.mk "BTC-USD" BUY LIMIT (Js.Fin 1)
                (Some (Js.Fin 0))));
     OnSuccess]
  /\ snd (handleSubmit Samples.btc_form_props (inl Samples.network_error)
            (mk SELL LIMIT "2.5" "-5") Store.init)
     = [NetCall HttpPost "/trade/"
          (Some (TradeRequest.mk "BTC-USD" SELL LIMIT (Js.Fin (5 # 2))
                   (Some (Js.Fin (-5)))))].
Proof. vm_compute. split; reflexivity. Qed.

(** C2, amended. Before any network call [handleSubmit] checks the
    quantity alone: when its text is empty or parses to a number that is
    not above zero, the handler alerts and returns, leaving form and store
    as they were, and nothing is sent.  Otherwise exactly one request is
    sent, a POST to [/trade/] of the request built from the form, of
    whatever type and limit price; a parsed quantity that is sent is above
    zero. *)
Theorem C2_quantity_guard :
  forall (props : Props) (reply : Reply OrderResponse.t) (f : Form)
         (s : Store.TradingStore),
    (invalid_quantity (quantity f) = true <->
       quantity f = EmptyString
       \/ Js.le_zero (Js.parseFloat (quantity f)) = true)
    /\ (invalid_quantity (quantity f) = true ->
        handleSubmit props reply f s
        = (f, s, [Alert "Please enter a valid quantity"])
        /\ filter is_NetCall (snd (handleSubmit props reply f s)) = [])
    /\ (invalid_quantity (quantity f) = false ->
        filter is_NetCall (snd (handleSubmit props reply f s))
        = [NetCall HttpPost "/trade/" (Some (request props f))]
        /\ forall q, Js.parseFloat (quantity f) = Js.Fin q -> (0 < q)%Q).
Proof.
  intros props reply f s. split; [|split].
  - unfold invalid_quantity. rewrite orb_true_iff.
    destruct (quantity f); cbn; intuition congruence.
  - intros Hbad. unfold handleSubmit. rewrite Hbad. split; reflexivity.
  - intros Hok. split.
    + unfold handleSubmit. rewrite Hok.
      destruct reply as [err|data]; cbn; [reflexivity|].
      destruct (onSuccess props); reflexivity.
    + intros q Hq. unfold invalid_quantity in Hok.
      apply orb_false_elim in Hok. destruct Hok as [_ Hle].
      rewrite Hq in Hle. cbn in Hle.
      apply Qnot_le_lt. intros Hq0. apply Qle_bool_iff in Hq0. congruence.
Qed.

Lemma C2_quantity_guard_witness :
  handleSubmit Samples.btc_form_props (inr Samples.filled_response)
    (mk BUY MARKET "0" "") Store.init
  = (mk BUY MARKET "0" "", Store.init, [Alert "Please enter a valid quantity"])
  /\ filter is_NetCall
       (snd (handleSubmit Samples.btc_form_props (inr Samples.filled_response)
               (mk BUY MARKET "0.5" "") Store.init))
     = [NetCall HttpPost "/trade/"
          (Some (request Samples.btc_form_props (mk BUY MARKET "0.5" "")))].
Proof.
  split.
  - exact (proj1 (proj1 (proj2
             (C2_quantity_guard Samples.btc_form_props
                (inr Samples.filled_response) (mk BUY MARKET "0" "")
                Store.init)) eq_refl)).
  - exact (proj1 (proj2 (proj2
             (C2_quantity_guard Samples.btc_form_props
                (inr Samples.filled_response) (mk BUY MARKET "0.5" "")
                Store.init)) eq_refl)).
Defined.

(** Quantities the guard turns away, and one it lets through. *)
Example invalid_quantities :
  map invalid_quantity [""; "0"; "-3"; "0.0"; "1"; "abc"]%string
  = [true; true; true; true; false; false].
Proof. vm_compute. reflexivity. Qed.

(** C10. A reply that [submitTrade] stores in [lastOrder] is drawn by the
    confirmation banner with [toFixed] on its [exec_price] and [slippage],
    whatever its status: the banner is drawn exactly when both fields hold
    a number, and a reply without execution data, as a pending order has
    none, makes the rendering fail with a type error. *)
Theorem C10_banner_needs_execution_fields :
  forall (trade : TradeRequest.t) (s : Store.TradingStore)
         (o : OrderResponse.t),
    let r := Store.submitTrade trade (inr o) s in
    Store.completion r = Resolved
    /\ Store.lastOrder (Store.after r) = Some o
    /\ ((exists b, lastOrderBanner (Store.lastOrder (Store.after r))
                   = Shown (Some b))
        <-> (exists p sl, OrderResponse.exec_price o = Some p
                          /\ OrderResponse.slippage o = Some sl))
    /\ (OrderResponse.exec_price o = None \/ OrderResponse.slippage o = None ->
        exists what,
          lastOrderBanner (Store.lastOrder (Store.after r)) = TypeError what)
    /\ (forall o',
          OrderResponse.exec_price o' = OrderResponse.exec_price o ->
          OrderResponse.slippage o' = OrderResponse.slippage o ->
          lastOrderBanner (Some o') = lastOrderBanner (Some o)).
Proof.
  intros trade s o r. cbn.
  split; [reflexivity|]. split; [reflexivity|].
  split; [|split].
  - destruct (OrderResponse.exec_price o) as [p|] eqn:Hp;
      destruct (OrderResponse.slippage o) as [sl|] eqn:Hs; cbn; split.
    all: try (intros [b Hb]; discriminate).
    all: try (intros [p' [sl' [H1 H2]]]; discriminate).
    + intros _. exists p, sl. split; reflexivity.
    + intros _. eexists; reflexivity.
  - intros [Hp|Hs].
    + rewrite Hp. eexists; reflexivity.
    + rewrite Hs. destruct (OrderResponse.exec_price o); eexists; reflexivity.
  - intros o' Hp Hs. unfold lastOrderBanner. rewrite Hp, Hs. reflexivity.
Qed.

Lemma C10_banner_witness :
  exists what,
    lastOrderBanner
      (Store.lastOrder
         (Store.after
            (Store.submitTrade
               (request Samples.btc_form_props (mk BUY LIMIT "1" "90"))
               (inr Samples.pending_response) Store.init)))
    = TypeError what.
Proof.
  exact (proj1 (proj2 (proj2 (proj2
           (C10_banner_needs_execution_fields
              (request Samples.btc_form_props (mk BUY LIMIT "1" "90"))
              Store.init Samples.pending_response))))
           (or_introl eq_refl)).
Defined.

(** The banner of an order that was filled at once. *)
Example banner_filled :
  lastOrderBanner (Some Samples.filled_response)
  = Shown (Some {| execution_price := "100.25";
                   slippage_percent := "0.2500" |}).
Proof. vm_compute. reflexivity. Qed.

End TradeFormClaims.

Section DashboardClaims.

Import Dashboard.

Lemma fetchDashboardStats_calls (reply : Reply DashboardStats)
  (s : Store.TradingStore) :
  filter is_NetCall (Store.events (Store.fetchDashboardStats reply s))
  = [stats_call].
Proof. destruct reply; reflexivity. Qed.

Lemma ticks_while_set (replies : list (Reply DashboardStats)) :
  forall (d : State) (period : Z),
    interval d = Some period ->
    interval (fst (ticks replies d)) = Some period
    /\ filter is_NetCall (snd (ticks replies d))
       = repeat stats_call (List.length replies).
Proof.
  induction replies as [|reply rest IH]; intros d period Hd.
  - split; [exact Hd | reflexivity].
  - cbn [ticks]. unfold tick. rewrite Hd.
    set (d1 := mk (Store.after (Store.fetchDashboardStats reply (store d)))
                  (Some period)).
    destruct (IH d1 period eq_refl) as [Hi Hc].
    destruct (ticks rest d1) as [d2 evs2]. cbn [fst snd] in *.
    split; [exact Hi|].
    rewrite filter_app, fetchDashboardStats_calls, Hc. reflexivity.
Qed.

(** C8. A refresh of the dashboard statistics that fails writes to the
    console and nothing else: the store is left as it was, error slot
    included, and the action resolves for its caller whatever the reply.
    The timer set at mount stays set through any run of ticks, failed or
    not: every tick sends its request, and a reply that arrives after a
    failed tick is stored. *)
Theorem C8_failed_refresh_is_swallowed :
  forall (s : Store.TradingStore) (err : ApiError),
    Store.fetchDashboardStats (inl err) s
    = Store.run Resolved s
        [stats_call; ConsoleError "Failed to fetch dashboard stats:" err]
    /\ (forall reply,
          Store.completion (Store.fetchDashboardStats reply s) = Resolved)
    /\ (forall first replies,
          let d := fst (ticks replies (fst (mount first s))) in
          let evs := snd (ticks replies (fst (mount first s))) in
          interval d = Some 30000
          /\ filter is_NetCall evs = repeat stats_call (List.length replies))
    /\ (forall first data,
          let d1 := fst (tick (inl err) (fst (mount first s))) in
          store d1 = store (fst (mount first s))
          /\ interval d1 = Some 30000
          /\ Store.dashboardStats (store (fst (tick (inr data) d1)))
             = Some data
          /\ filter is_NetCall (snd (tick (inr data) d1)) = [stats_call]).
Proof.
  intros s err. split; [reflexivity|].
  split; [intros reply; destruct reply; reflexivity|].
  split.
  - intros first replies. cbn zeta.
    apply (ticks_while_set replies (fst (mount first s)) 30000).
    reflexivity.
  - intros first data. cbn. repeat split.
Qed.

(** A failed tick between two successful ones. *)
Example poll_through_failure :
  let run :=
    ticks [inl Samples.network_error; inr Samples.dashboard_stats]
      (fst (mount (inl Samples.network_error) Store.init)) in
  Store.dashboardStats (store (fst run)) = Some Samples.dashboard_stats
  /\ Store.error (store (fst run)) = None
  /\ List.length (filter is_NetCall (snd run)) = 2%nat.
Proof. vm_compute. repeat split; reflexivity. Qed.

(** After the cleanup of the effect no tick sends anything. *)
Example no_tick_after_unmount :
  forall reply d, tick reply (unmount d) = (unmount d, []).
Proof. reflexivity. Qed.

End DashboardClaims.

(* ================================================================== *)
(** ** Further properties: integers as text *)
(* ================================================================== *)

Section IntegerText.

Import Js.

Lemma take_digits_string_of_uint (d : Decimal.uint) :
  forall acc cnt,
    take_digits (list_ascii_of_string (NilEmpty.string_of_uint d)) acc cnt
    = (read_uint d acc, (cnt + Decimal.nb_digits d)%nat, []).
Proof.
  induction d; intros acc cnt; cbn [NilEmpty.string_of_uint
    list_ascii_of_string take_digits read_uint Decimal.nb_digits];
    [ rewrite Nat.add_0_r; reflexivity | .. ];
    change (is_digit _) with true; cbv iota; rewrite IHd;
    rewrite Nat.add_succ_r; reflexivity.
Qed.

Lemma read_uint_acc (d : Decimal.uint) :
  forall acc : positive,
    read_uint d (Z.pos acc) = Z.pos (Pos.of_uint_acc d acc).
Proof.
  induction d; intros acc; cbn [read_uint Pos.of_uint_acc];
    [ reflexivity | .. ];
    match goal with
    | |- read_uint _ ?z = Z.pos (Pos.of_uint_acc _ ?p) =>
        replace z with (Z.pos p) by lia
    end; apply IHd.
Qed.

Lemma read_uint_of_uint (d : Decimal.uint) :
  read_uint d 0 = Z.of_N (Pos.of_uint d).
Proof.
  induction d; cbn [read_uint Pos.of_uint]; [ reflexivity | exact IHd | .. ];
    cbn [Z.mul Z.add]; rewrite read_uint_acc; reflexivity.
Qed.

Lemma read_uint_to_uint (n : N) : read_uint (N.to_uint n) 0 = Z.of_N n.
Proof.
  rewrite read_uint_of_uint. change (Pos.of_uint (N.to_uint n))
    with (N.of_uint (N.to_uint n)).
  rewrite DecimalN.Unsigned.of_to. reflexivity.
Qed.

Lemma digit_is_plain (c : ascii) :
  is_digit c = true ->
  is_space c = false
  /\ Ascii.eqb c "-" = false /\ Ascii.eqb c "+" = false
  /\ Ascii.eqb c "x" = false /\ Ascii.eqb c "X" = false.
Proof.
  destruct c as [b0 b1 b2 b3 b4 b5 b6 b7].
  destruct b0, b1, b2, b3, b4, b5, b6, b7; vm_compute;
    intros Hc; try discriminate Hc; repeat split.
Qed.

Lemma string_of_uint_digits (d : Decimal.uint) :
  Forall (fun c => is_digit c = true)
         (list_ascii_of_string (NilEmpty.string_of_uint d)).
Proof.
  induction d; cbn [NilEmpty.string_of_uint list_ascii_of_string];
    constructor; solve [reflexivity | exact IHd].
Qed.

(** On text that starts with a decimal digit and goes on with decimal
    digits only, with or without a minus sign in front, [parseInt] is
    [take_digits]. *)
Lemma parseInt_digits (c : ascii) (rest : list ascii) :
  Forall (fun c => is_digit c = true) (c :: rest) ->
  forall v cnt tl,
    take_digits (c :: rest) 0 0 = (v, S cnt, tl) ->
    parseInt (string_of_list_ascii (c :: rest)) = Fin (inject_Z v)
    /\ parseInt (String "-" (string_of_list_ascii (c :: rest)))
       = Fin (inject_Z (- v)).
Proof.
  intros Hall v cnt tl Htd.
  pose proof (Forall_inv Hall) as Hc.
  destruct (digit_is_plain c Hc) as (Hsp & Hm & Hp & _ & _).
  assert (Hhex : forall b, In b rest ->
            Ascii.eqb c "0" && (Ascii.eqb b "x" || Ascii.eqb b "X") = false).
  { intros b Hb. pose proof (Forall_inv_tail Hall) as Hrest.
    rewrite Forall_forall in Hrest.
    destruct (digit_is_plain b (Hrest b Hb)) as (_ & _ & _ & Hx & HX).
    rewrite Hx, HX, andb_false_r. reflexivity. }
  split; unfold parseInt.
  - rewrite list_ascii_of_string_of_list_ascii.
    cbn [skip_spaces]. rewrite Hsp, Hm, Hp. cbv beta iota zeta.
    destruct rest as [|b r]; cbv beta iota zeta;
      [|rewrite (Hhex b (or_introl eq_refl)); cbv beta iota zeta];
      rewrite Htd; reflexivity.
  - cbn [list_ascii_of_string]. rewrite list_ascii_of_string_of_list_ascii.
    cbn [skip_spaces]. change (is_space "-") with false.
    cbv beta iota zeta. rewrite Ascii.eqb_refl. cbv beta iota zeta.
    destruct rest as [|b r]; cbv beta iota zeta;
      [|rewrite (Hhex b (or_introl eq_refl)); cbv beta iota zeta];
      rewrite Htd; reflexivity.
Qed.

Lemma parseInt_uint (d : Decimal.uint) :
  d <> Decimal.Nil ->
  parseInt (NilEmpty.string_of_uint d) = Fin (inject_Z (read_uint d 0))
  /\ parseInt (append "-" (NilEmpty.string_of_uint d))
     = Fin (inject_Z (- read_uint d 0)).
Proof.
  intros Hd.
  pose proof (take_digits_string_of_uint d 0 0) as Htd.
  pose proof (string_of_uint_digits d) as Hall.
  rewrite <- (string_of_list_ascii_of_string (NilEmpty.string_of_uint d)).
  destruct (list_ascii_of_string (NilEmpty.string_of_uint d))
    as [|c rest] eqn:Hl.
  - destruct d; try congruence; discriminate Hl.
  - assert (Hnb : exists k, (0 + Decimal.nb_digits d)%nat = S k).
    { destruct d; [congruence|eexists; reflexivity..]. }
    destruct Hnb as [k Hk]. rewrite Hk in Htd.
    exact (parseInt_digits c rest Hall _ _ _ Htd).
Qed.

Lemma to_uint_nonnil (n : N) : N.to_uint n <> Decimal.Nil.
Proof.
  destruct n as [|p]; cbn; [discriminate|].
  apply DecimalPos.Unsigned.to_uint_nonnil.
Qed.

Lemma digits_nonnil (n : Z) :
  digits n = NilEmpty.string_of_uint (N.to_uint (Z.to_N n)).
Proof.
  unfold digits, NilZero.string_of_uint.
  pose proof (to_uint_nonnil (Z.to_N n)) as Hn.
  destruct (N.to_uint (Z.to_N n)); [congruence|reflexivity..].
Qed.

(** An integer printed with [toString] is read back by [parseInt]. *)
Lemma parseInt_int_toString (z : Z) :
  parseInt (int_toString z) = Fin (inject_Z z).
Proof.
  unfold int_toString. destruct (z <? 0) eqn:Hz.
  - apply Z.ltb_lt in Hz. rewrite digits_nonnil.
    rewrite (proj2 (parseInt_uint _ (to_uint_nonnil (Z.to_N (- z))))).
    rewrite read_uint_to_uint. do 2 f_equal. lia.
  - apply Z.ltb_ge in Hz. rewrite digits_nonnil.
    rewrite (proj1 (parseInt_uint _ (to_uint_nonnil (Z.to_N z)))).
    rewrite read_uint_to_uint. do 2 f_equal. lia.
Qed.

Lemma int_toString_truthy (z : Z) : truthy (int_toString z) = true.
Proof.
  unfold int_toString. destruct (z <? 0); [reflexivity|].
  rewrite digits_nonnil.
  pose proof (to_uint_nonnil (Z.to_N z)) as Hn.
  destruct (N.to_uint (Z.to_N z)); [congruence|reflexivity..].
Qed.

End IntegerText.

(* ================================================================== *)
(** ** Further properties: the session *)
(* ================================================================== *)

Section StorageFacts.

Import Auth.

Lemma getItem_removeItem_same (key : string) (ls : Storage) :
  getItem key (removeItem key ls) = None.
Proof.
  unfold getItem, removeItem.
  induction ls as [|[k v] ls IH]; cbn; [reflexivity|].
  destruct (String.eqb k key) eqn:Hk; cbn; [exact IH|].
  rewrite Hk. exact IH.
Qed.

Lemma getItem_removeItem_other (key other : string) (ls : Storage) :
  key <> other -> getItem key (removeItem other ls) = getItem key ls.
Proof.
  intros Hne. unfold getItem, removeItem.
  induction ls as [|[k v] ls IH]; cbn; [reflexivity|].
  destruct (String.eqb k other) eqn:Ho; cbn.
  - apply String.eqb_eq in Ho. subst k.
    replace (String.eqb other key) with false
      by (symmetry; apply String.eqb_neq; congruence).
    exact IH.
  - destruct (String.eqb k key); [reflexivity | exact IH].
Qed.

Lemma getItem_setItem_same (key value : string) (ls : Storage) :
  getItem key (setItem key value ls) = Some value.
Proof. unfold getItem, setItem. cbn. rewrite String.eqb_refl. reflexivity. Qed.

Lemma getItem_setItem_other (key other value : string) (ls : Storage) :
  key <> other -> getItem key (setItem other value ls) = getItem key ls.
Proof.
  intros Hne. unfold setItem.
  change (getItem key ((other, value) :: removeItem other ls))
    with (option_map snd
            (if String.eqb other key then Some (other, value)
             else find (fun kv => String.eqb (fst kv) key)
                       (removeItem other ls))).
  replace (String.eqb other key) with false
    by (symmetry; apply String.eqb_neq; congruence).
  apply (getItem_removeItem_other key other ls Hne).
Qed.

Lemma store_session_items (token : string) (id : Z) (email : string)
  (ls : Storage) :
  getItem "token" (store_session token id email ls) = Some token
  /\ getItem "userId" (store_session token id email ls)
     = Some (Js.int_toString id)
  /\ getItem "email" (store_session token id email ls) = Some email.
Proof.
  unfold store_session. split; [|split].
  - rewrite !getItem_setItem_other by discriminate.
    apply getItem_setItem_same.
  - rewrite getItem_setItem_other by discriminate.
    apply getItem_setItem_same.
  - apply getItem_setItem_same.
Qed.

Lemma init_store_session (token : string) (id : Z) (email : string)
  (ls : Storage) :
  init (store_session token id email ls)
  = mk (Some token) (Some (Js.Fin (inject_Z id))) (Some email) false None.
Proof.
  destruct (store_session_items token id email ls) as (Ht & Hu & He).
  unfold init. rewrite Ht, Hu, He, int_toString_truthy, parseInt_int_toString.
  reflexivity.
Qed.

Lemma truthy_number_int (id : Z) :
  Js.truthy_number (Js.Fin (inject_Z id)) = negb (id =? 0).
Proof.
  cbn. f_equal. destruct (id =? 0) eqn:Hz.
  - apply Z.eqb_eq in Hz. subst id. reflexivity.
  - apply Z.eqb_neq in Hz. destruct (Qeq_bool (inject_Z id) 0) eqn:Hq;
      [|reflexivity].
    apply Qeq_bool_iff in Hq. unfold Qeq in Hq. cbn in Hq. lia.
Qed.

Lemma truthy_iff (s : string) : Js.truthy s = true <-> s <> EmptyString.
Proof. destruct s; cbn; split; congruence. Qed.

Lemma or_string_truthy (a : option string) (b : string) :
  Js.truthy b = true -> Js.truthy (Js.or_string a b) = true.
Proof.
  intros Hb. unfold Js.or_string. destruct a as [s|]; [|exact Hb].
  destruct (Js.truthy s) eqn:Hs; [exact Hs | exact Hb].
Qed.

End StorageFacts.

(** Closes a goal [exists msg, slot = Some msg /\ truthy msg = true] when
    the slot holds a chain of [||] that ends in a literal. *)
Ltac message_not_empty :=
  eexists; split;
  [ reflexivity | repeat apply or_string_truthy; reflexivity ].

Section SessionProperties.

Import Auth Pages.

(** A session written by [login], [signup] or [setToken] is the one a
    reload of the page reads back: the store that [create] builds from
    [localStorage] holds the same token, user id and e-mail, the user id
    having gone through [toString] and [parseInt].  The user id is an
    integer that a JavaScript number holds exactly. *)
Theorem session_survives_reload :
  forall (mail password token : string) (id : Z)
         (created : SignupResponse.t) (data : LoginResponse.t) (w : World),
    Z.abs id < 2 ^ 53 ->
    Z.abs (LoginResponse.user_id data) < 2 ^ 53 ->
    Z.abs (SignupResponse.user_id created) < 2 ^ 53 ->
    init (storage (after (login mail password (inr data) w)))
    = store (after (login mail password (inr data) w))
    /\ init (storage (after (signup mail password (inr created) (inr data) w)))
       = store (after (signup mail password (inr created) (inr data) w))
    /\ init (storage (setToken token id mail w))
       = mk (Some token) (Some (Js.Fin (inject_Z id))) (Some mail) false None.
Proof.
  intros mail password token id created data w _ _ _.
  cbn. rewrite !init_store_session. repeat split.
Qed.

Lemma session_survives_reload_witness :
  init (storage (after (login "trader@example.com" "s3cret!"
                          (inr Samples.login_reply) Samples.signed_out)))
  = store (after (login "trader@example.com" "s3cret!"
                    (inr Samples.login_reply) Samples.signed_out)).
Proof.
  refine (proj1 (session_survives_reload "trader@example.com" "s3cret!"
                   "eyJhbGciOi" 42 Samples.signup_reply Samples.login_reply
                   Samples.signed_out _ _ _)); vm_compute; reflexivity.
Defined.

(** After [logout] nothing of the session is left: the three entries are
    gone from [localStorage] and every other entry is kept, no
    [Authorization] header is added to a request, a reload finds no
    session, the guard of the protected routes redirects to [/login] and
    the home page stays where it is. *)
Theorem logout_ends_session :
  forall (w : World),
    let w' := logout w in
    store w' = mk None None None false None
    /\ getItem "token" (storage w') = None
    /\ getItem "userId" (storage w') = None
    /\ getItem "email" (storage w') = None
    /\ (forall key,
          key <> "token"%string -> key <> "userId"%string ->
          key <> "email"%string ->
          getItem key (storage w') = getItem key (storage w))
    /\ authorization (storage w') = None
    /\ init (storage w') = store w'
    /\ isAuthenticated (store w') = false
    /\ ProtectedRoute (store w') = RedirectTo "/login"
    /\ Home_effect (store w') = None.
Proof.
  intros w w'.
  assert (Ht : getItem "token" (storage w') = None).
  { unfold w', logout. cbn [storage].
    rewrite !getItem_removeItem_other by discriminate.
    apply getItem_removeItem_same. }
  assert (Hu : getItem "userId" (storage w') = None).
  { unfold w', logout. cbn [storage].
    rewrite getItem_removeItem_other by discriminate.
    apply getItem_removeItem_same. }
  assert (He : getItem "email" (storage w') = None).
  { unfold w', logout. cbn [storage]. apply getItem_removeItem_same. }
  split; [reflexivity|]. split; [exact Ht|]. split; [exact Hu|].
  split; [exact He|]. split.
  { intros key H1 H2 H3. unfold w', logout. cbn [storage].
    rewrite !getItem_removeItem_other by congruence. reflexivity. }
  split; [unfold authorization; rewrite Ht; reflexivity|].
  split; [unfold init; rewrite Ht, Hu, He; reflexivity|].
  repeat split.
Qed.

Lemma logout_ends_session_witness :
  getItem "theme"
    (storage (logout (world (init []) [("theme", "dark"); ("token", "abc")]%string)))
  = Some "dark"%string.
Proof.
  refine (proj1 (proj2 (proj2 (proj2 (proj2
            (logout_ends_session
               (world (init []) [("theme", "dark"); ("token", "abc")]%string))))))
            "theme"%string _ _ _); discriminate.
Defined.

(** A login that succeeds stores the session and resolves; the user then
    counts as authenticated exactly when the token is not empty and the
    user id is not 0, both being tested by truthiness, and the requests of
    the API client carry [Bearer <token>] whenever the token is not
    empty. *)
Theorem login_authenticates :
  forall (mail password : string) (data : LoginResponse.t) (w : World),
    let r := login mail password (inr data) w in
    completion r = Resolved
    /\ store (after r)
       = mk (Some (LoginResponse.token data))
            (Some (Js.Fin (inject_Z (LoginResponse.user_id data))))
            (Some (LoginResponse.email data)) false None
    /\ (isAuthenticated (store (after r)) = true <->
        LoginResponse.token data <> EmptyString
        /\ LoginResponse.user_id data <> 0)
    /\ (ProtectedRoute (store (after r)) = Children <->
        LoginResponse.token data <> EmptyString
        /\ LoginResponse.user_id data <> 0)
    /\ authorization (storage (after r))
       = (if Js.truthy (LoginResponse.token data)
          then Some (append "Bearer " (LoginResponse.token data))
          else None).
Proof.
  intros mail password data w r.
  assert (Hauth : isAuthenticated (store (after r))
                  = Js.truthy (LoginResponse.token data)
                    && negb (LoginResponse.user_id data =? 0)).
  { unfold r, isAuthenticated, authenticated. cbn [login after store
      set_session token userId]. rewrite truthy_number_int. reflexivity. }
  assert (Hiff : isAuthenticated (store (after r)) = true <->
                 LoginResponse.token data <> EmptyString
                 /\ LoginResponse.user_id data <> 0).
  { rewrite Hauth, andb_true_iff, truthy_iff, negb_true_iff, Z.eqb_neq.
    reflexivity. }
  split; [reflexivity|]. split; [reflexivity|]. split; [exact Hiff|].
  split.
  - rewrite <- Hiff. unfold ProtectedRoute, isAuthenticated.
    destruct (authenticated (store (after r))); cbn; split;
      congruence.
  - unfold r. cbn [login after storage]. unfold authorization.
    destruct (store_session_items (LoginResponse.token data)
                (LoginResponse.user_id data) (LoginResponse.email data)
                (storage w)) as (Ht & _ & _).
    rewrite Ht. reflexivity.
Qed.

(** A login that succeeds with the user id 0 leaves the user outside. *)
Example login_with_id_zero :
  let r := login "root@example.com" "s3cret!"
             (inr (LoginResponse.mk "eyJhbGciOi" 0 "root@example.com"))
             Samples.signed_out in
  ProtectedRoute (store (after r)) = RedirectTo "/login"
  /\ authorization (storage (after r)) = Some "Bearer eyJhbGciOi"%string.
Proof. vm_compute. split; reflexivity. Qed.

(** A login that fails is stored and rethrown: the error slot gets the
    message of the server or ["Login failed"], never an empty text, the
    session in the store and in [localStorage] stays what it was, and the
    login page does not navigate.  Either way one request is sent, and the
    page navigates to [/dashboard] exactly after a login that succeeded. *)
Theorem login_failure_keeps_session :
  forall (mail password : string) (err : ApiError) (w : World),
    let r := login mail password (inl err) w in
    completion r = Rejected err
    /\ storage (after r) = storage w
    /\ token (store (after r)) = token (store w)
    /\ userId (store (after r)) = userId (store w)
    /\ Auth.email (store (after r)) = Auth.email (store w)
    /\ isAuthenticated (store (after r)) = isAuthenticated (store w)
    /\ isLoading (store (after r)) = false
    /\ (exists msg, error (store (after r)) = Some msg
                    /\ Js.truthy msg = true)
    /\ snd (Login_handleSubmit mail password (inl err) w)
       = [Post (append API_BASE_URL "/auth/login") mail password]
    /\ (forall reply,
          filter is_Post (snd (Login_handleSubmit mail password reply w))
          = [Post (append API_BASE_URL "/auth/login") mail password]
          /\ (In (Navigate "/dashboard")
                 (snd (Login_handleSubmit mail password reply w))
              <-> exists data, reply = inr data)).
Proof.
  intros mail password err w r. unfold r. cbn.
  repeat split; try reflexivity.
  - eexists. split; [reflexivity|]. apply or_string_truthy. reflexivity.
  - destruct reply; reflexivity.
  - destruct reply as [e|data]; cbn; [intuition discriminate|].
    intros _. eexists; reflexivity.
  - intros [data Hd]. subst reply. cbn. right. left. reflexivity.
Qed.

End SessionProperties.

Section SignupProperties.

Import Auth Pages.

(** [signup] sends the request that creates the account and then, only
    if that one succeeded, the login request; it resolves exactly when
    both succeed, and then the session holds the token of the login reply
    with the user id and e-mail of the signup reply.  When either request
    fails the failure is rethrown, nothing is written to the session or to
    [localStorage], and the error slot gets a message that is not empty. *)
Theorem signup_two_requests :
  forall (mail password : string) (signupReply : Reply SignupResponse.t)
         (loginReply : Reply LoginResponse.t) (w : World),
    let r := signup mail password signupReply loginReply w in
    let call1 := Post (append API_BASE_URL "/auth/signup") mail password in
    let call2 := Post (append API_BASE_URL "/auth/login") mail password in
    events r
      = call1 :: (match signupReply with inr _ => [call2] | inl _ => [] end)
    /\ (completion r = Resolved <->
        exists created data,
          signupReply = inr created /\ loginReply = inr data)
    /\ (forall created data,
          signupReply = inr created -> loginReply = inr data ->
          store (after r)
          = mk (Some (LoginResponse.token data))
               (Some (Js.Fin (inject_Z (SignupResponse.user_id created))))
               (Some (SignupResponse.email created)) false None)
    /\ (completion r <> Resolved ->
        storage (after r) = storage w
        /\ token (store (after r)) = token (store w)
        /\ userId (store (after r)) = userId (store w)
        /\ Auth.email (store (after r)) = Auth.email (store w)
        /\ exists msg, error (store (after r)) = Some msg
                       /\ Js.truthy msg = true).
Proof.
  intros mail password signupReply loginReply w r call1 call2.
  assert (Hfail : forall err evs,
    let r' := run (Rejected err)
                (world (set_error
                          (Js.or_string (response_data_message err)
                             "Signup failed") (set_loading (store w)))
                       (storage w)) evs in
    storage (after r') = storage w
    /\ token (store (after r')) = token (store w)
    /\ userId (store (after r')) = userId (store w)
    /\ Auth.email (store (after r')) = Auth.email (store w)
    /\ exists msg, error (store (after r')) = Some msg
                   /\ Js.truthy msg = true).
  { intros err evs. cbn. repeat split.
    eexists. split; [reflexivity|]. apply or_string_truthy. reflexivity. }
  unfold r, signup.
  destruct signupReply as [e1|created]; [|destruct loginReply as [e2|data]].
  - split; [reflexivity|]. split; [|split].
    + split; [discriminate | intros (c & d & H1 & H2); discriminate].
    + intros c d H1 H2. discriminate.
    + intros _. apply Hfail.
  - split; [reflexivity|]. split; [|split].
    + split; [discriminate | intros (c & d & H1 & H2); discriminate].
    + intros c d H1 H2. discriminate.
    + intros _. apply Hfail.
  - split; [reflexivity|]. split; [|split].
    + split; [intros _; eexists; eexists; split; reflexivity | reflexivity].
    + intros c d H1 H2. injection H1 as <-. injection H2 as <-. reflexivity.
    + intros Hne. exfalso. apply Hne. reflexivity.
Qed.

Lemma signup_two_requests_witness :
  storage (after (signup "trader@example.com" "s3cret!"
                    (inr Samples.signup_reply) (inl Samples.network_error)
                    Samples.signed_out))
  = storage Samples.signed_out.
Proof.
  refine (proj1 (proj2 (proj2 (proj2
            (signup_two_requests "trader@example.com" "s3cret!"
               (inr Samples.signup_reply) (inl Samples.network_error)
               Samples.signed_out))) _)).
  discriminate.
Defined.

(** The signup page sends nothing unless the two passwords are equal and
    the password has six characters or more: otherwise it sets its
    validation message, which is then what the page shows when the store
    holds no error, and leaves store and [localStorage] alone.  When both
    checks pass it calls [signup] once, and it navigates to [/dashboard]
    exactly when both requests succeeded. *)
Theorem Signup_validates_before_sending :
  forall (f : SignupForm) (signupReply : Reply SignupResponse.t)
         (loginReply : Reply LoginResponse.t) (w : World),
    let out := Signup_handleSubmit f signupReply loginReply w in
    let valid :=
      String.eqb (password f) (confirmPassword f)
      && (6 <=? String.length (password f))%nat in
    (valid = false ->
       snd out = []
       /\ snd (fst out) = w
       /\ Js.truthy (validationError (fst (fst out))) = true
       /\ (error (store w) = None ->
           Signup_message (store w) (fst (fst out))
           = Some (validationError (fst (fst out)))))
    /\ (valid = true ->
        snd (fst out)
          = after (signup (Pages.email f) (password f)
                     signupReply loginReply w)
        /\ filter is_Post (snd out)
           = events (signup (Pages.email f) (password f)
                       signupReply loginReply w)
        /\ validationError (fst (fst out)) = EmptyString
        /\ (In (Navigate "/dashboard") (snd out) <->
            exists created data,
              signupReply = inr created /\ loginReply = inr data)).
Proof.
  intros f signupReply loginReply w out valid. unfold out, valid.
  unfold Signup_handleSubmit.
  destruct (String.eqb (password f) (confirmPassword f)) eqn:Hsame;
    cbn [negb andb].
  - destruct (String.length (password f) <? 6)%nat eqn:Hlen.
    + assert (Hv : (6 <=? String.length (password f))%nat = false).
      { apply Nat.leb_gt. apply Nat.ltb_lt in Hlen. exact Hlen. }
      rewrite Hv. split; [|discriminate]. intros _. cbn. repeat split.
      intros He. unfold Signup_message. rewrite He. reflexivity.
    + assert (Hv : (6 <=? String.length (password f))%nat = true).
      { apply Nat.leb_le. apply Nat.ltb_ge in Hlen. exact Hlen. }
      rewrite Hv. split; [discriminate|]. intros _.
      destruct signupReply as [e1|created];
        [|destruct loginReply as [e2|data]]; cbn;
        (split; [reflexivity|]); (split; [reflexivity|]);
        (split; [reflexivity|]).
      * split; [intros [H|[]]; discriminate
               | intros (c & d & H1 & H2); discriminate].
      * split; [intros [H|[H|[]]]; discriminate
               | intros (c & d & H1 & H2); discriminate].
      * split; [intros _; eexists; eexists; split; reflexivity|].
        intros _. right. right. left. reflexivity.
  - split; [|discriminate]. intros _. cbn. repeat split.
    intros He. unfold Signup_message. rewrite He. reflexivity.
Qed.

Lemma Signup_validates_before_sending_witness :
  snd (Signup_handleSubmit
         {| Pages.email := "trader@example.com";
            password := "s3cret!";
            confirmPassword := "s3cret?";
            validationError := EmptyString |}
         (inr Samples.signup_reply) (inr Samples.login_reply)
         Samples.signed_out) = []
  /\ In (Navigate "/dashboard")
        (snd (Signup_handleSubmit Samples.good_signup
                (inr Samples.signup_reply) (inr Samples.login_reply)
                Samples.signed_out)).
Proof.
  split.
  - exact (proj1 (proj1 (Signup_validates_before_sending
             {| Pages.email := "trader@example.com";
                password := "s3cret!";
                confirmPassword := "s3cret?";
                validationError := EmptyString |}
             (inr Samples.signup_reply) (inr Samples.login_reply)
             Samples.signed_out) eq_refl)).
  - refine (proj2 (proj2 (proj2 (proj2 (proj2
             (Signup_validates_before_sending Samples.good_signup
                (inr Samples.signup_reply) (inr Samples.login_reply)
                Samples.signed_out) eq_refl)))) _).
    exists Samples.signup_reply, Samples.login_reply. split; reflexivity.
Defined.

End SignupProperties.

(* ================================================================== *)
(** ** Further properties: the trading store *)
(* ================================================================== *)

Section StoreProperties.

Import Store.


(** Every action writes its own slot and nothing else beside the loading
    flag and the error slot: the order book, the last order, the trades,
    the analytics and the dashboard statistics each change only through
    their own action, and only when it succeeds; [fetchDashboardStats]
    touches neither the loading flag nor the error slot, and the selection
    is left alone by all of them. *)
Theorem store_slot_ownership :
  forall (s : TradingStore) (symbol : string) (trade : TradeRequest.t)
         (rb : Reply OrderBook.t) (ro : Reply OrderResponse.t)
         (rt : Reply (option (list AnalyticsTrade.t)))
         (ra : Reply AnalyticsBody) (rd : Reply DashboardStats),
    let b := after (fetchOrderBook symbol rb s) in
    let o := after (submitTrade trade ro s) in
    let t := after (fetchAllTrades rt s) in
    let a := after (fetchAnalytics ra s) in
    let d := after (fetchDashboardStats rd s) in
    (b = mk (match rb with inr data => Some data | inl _ => orderBook s end)
            (selectedSymbol s) (selectedSide s) false (error b)
            (trades s) (stats s) (lastOrder s) (dashboardStats s))
    /\ (o = mk (orderBook s) (selectedSymbol s) (selectedSide s) false
               (error o) (trades s) (stats s)
               (match ro with inr data => Some data | inl _ => lastOrder s end)
               (dashboardStats s))
    /\ (t = mk (orderBook s) (selectedSymbol s) (selectedSide s) false
               (error t)
               (match rt with
                | inr (Some l) => l
                | inr None => []
                | inl _ => trades s
                end)
               (stats s) (lastOrder s) (dashboardStats s))
    /\ (a = mk (orderBook s) (selectedSymbol s) (selectedSide s) false
               (error a) (trades s)
               (match ra with
                | inr (BodyWrapped st) | inr (BodyBare st) => Some st
                | inr BodyFalsy => None
                | inr BodyNull | inl _ => stats s
                end)
               (lastOrder s) (dashboardStats s))
    /\ (d = mk (orderBook s) (selectedSymbol s) (selectedSide s)
               (isLoading s) (error s) (trades s) (stats s) (lastOrder s)
               (match rd with
                | inr data => Some data
                | inl _ => dashboardStats s
                end)).
Proof.
  intros s symbol trade rb ro rt ra rd. cbn zeta.
  destruct s as [ob sy sd ld er tr st lo ds].
  split; [destruct rb; reflexivity|].
  split; [destruct ro; reflexivity|].
  split; [destruct rt as [e|[l|]]; reflexivity|].
  split; [destruct ra as [e|[| |x|x]]; reflexivity|].
  destruct rd; reflexivity.
Qed.

(** When [/me/analytics] answers [null], the fallback to [null] of
    [response.data.stats || response.data || null] is never reached:
    reading [stats] of the body throws inside the [try] block, and the
    action ends like a failed request, with the message of the type error
    in the error slot and the statistics left as they were.  A body that
    is falsy without being [null] does store [null].  So on a new account,
    where both [/me/orders] and [/me/analytics] answer [null], the page
    ends, in either order of arrival, with an empty list of trades, which
    it shows as its empty state, and with that message in the error slot
    of the store. *)
Theorem fetchAnalytics_null_body :
  forall (s : TradingStore) (sel : option string),
    let r := fetchAnalytics (inr BodyNull) s in
    let s0 := fst (Analytics.mount_begin s) in
    let orders_first :=
      fetchAnalytics_settle (inr BodyNull)
        (fetchAllTrades_settle (inr None) s0) in
    let analytics_first :=
      fetchAllTrades_settle (inr None)
        (fetchAnalytics_settle (inr BodyNull) s0) in
    completion r = Resolved
    /\ stats (after r) = stats s
    /\ error (after r) = Some null_stats_message
    /\ isLoading (after r) = false
    /\ stats (after (fetchAnalytics (inr BodyFalsy) s)) = None
    /\ error (after (fetchAnalytics (inr BodyFalsy) s)) = None
    /\ orders_first = analytics_first
    /\ trades orders_first = []
    /\ stats orders_first = stats s
    /\ error orders_first = Some null_stats_message
    /\ Analytics.page_body sel orders_first = Analytics.NoTradesYet.
Proof.
  intros s sel. destruct s as [ob sy sd ld er tr st lo ds].
  cbn. repeat split.
Qed.

Lemma fetchAllTrades_by_settle
  (reply : Reply (option (list AnalyticsTrade.t))) (s : TradingStore) :
  after (fetchAllTrades reply s) = fetchAllTrades_settle reply (set_loading s).
Proof. destruct reply as [e|[l|]]; reflexivity. Qed.

End StoreProperties.

Section AnalyticsMount.

Import Store Analytics.



End AnalyticsMount.

(* ================================================================== *)
(** ** Further properties: the trade form *)
(* ================================================================== *)

Section TradeFormProperties.

Import TradeForm.

(** What a submission that passed the quantity check leaves behind.
    After a success the two text fields are cleared while side and type
    stay, the reply is the last order, the error slot is empty and
    [onSuccess] is called if the parent gave one.  After a failure the form
    keeps its text for another try, the error slot holds a message that is
    not empty, [onSuccess] is not called, and the last order is still the
    one of an earlier submission, so its confirmation stays on the form
    next to the error.  A market order never carries a limit price, whatever
    the price field holds. *)
Theorem handleSubmit_outcomes :
  forall (props : Props) (f : Form) (s : Store.TradingStore),
    invalid_quantity (quantity f) = false ->
    (forall data,
        let out := handleSubmit props (inr data) f s in
        fst (fst out) = mk (side f) (type f) EmptyString EmptyString
        /\ Store.lastOrder (snd (fst out)) = Some data
        /\ Store.error (snd (fst out)) = None
        /\ Store.isLoading (snd (fst out)) = false
        /\ (In OnSuccess (snd out) <-> onSuccess props = true))
    /\ (forall err,
          let out := handleSubmit props (inl err) f s in
          fst (fst out) = f
          /\ Store.lastOrder (snd (fst out)) = Store.lastOrder s
          /\ lastOrderBanner (Store.lastOrder (snd (fst out)))
             = lastOrderBanner (Store.lastOrder s)
          /\ Store.isLoading (snd (fst out)) = false
          /\ (exists msg, Store.error (snd (fst out)) = Some msg
                          /\ Js.truthy msg = true)
          /\ ~ In OnSuccess (snd out))
    /\ (TradeRequest.limit_price (request props f) = None <->
        type f = MARKET)
    /\ TradeRequest.symbol (request props f) = symbol props
    /\ TradeRequest.side (request props f) = side f.
Proof.
  intros props f s Hok. split; [|split; [|split]].
  - intros data. unfold handleSubmit. rewrite Hok. cbn.
    repeat split.
    + intros [H|H]; [discriminate|].
      destruct (onSuccess props); [reflexivity|contradiction].
    + intros ->. right. left. reflexivity.
  - intros err. unfold handleSubmit. rewrite Hok. cbn.
    repeat split.
    + message_not_empty.
    + intros [H|[]]. discriminate.
  - unfold request. cbn. destruct (type f); split; congruence.
  - split; reflexivity.
Qed.

Lemma handleSubmit_outcomes_witness :
  fst (fst (handleSubmit Samples.btc_form_props (inl Samples.network_error)
              (mk SELL LIMIT "2.5" "101") Store.init))
  = mk SELL LIMIT "2.5" "101".
Proof.
  exact (proj1 (proj1 (proj2
           (handleSubmit_outcomes Samples.btc_form_props
              (mk SELL LIMIT "2.5" "101") Store.init eq_refl))
           Samples.network_error)).
Defined.

End TradeFormProperties.

(* ================================================================== *)
(** ** Further properties: the order book view *)
(* ================================================================== *)

Section OrderBookProperties.

Import OrderBookView.

Local Open Scope Q_scope.

Lemma Math_max_from (xs : list Q) :
  forall a,
    exists m,
      fold_left
        (fun acc x =>
           match acc with
           | MinusInfinity => Max x
           | Max a => Max (if Qle_bool a x then x else a)
           end) xs (Max a) = Max m
      /\ (m = a \/ In m xs)
      /\ a <= m
      /\ forall x, In x xs -> x <= m.
Proof.
  induction xs as [|x xs IH]; intros a; cbn [fold_left].
  - exists a. repeat split; [left; reflexivity | apply Qle_refl |].
    intros x [].
  - destruct (IH (if Qle_bool a x then x else a)) as (m & Hm & Hin & Hle & Hall).
    exists m. split; [exact Hm|].
    destruct (Qle_bool a x) eqn:Hax.
    + apply Qle_bool_iff in Hax.
      split; [right; destruct Hin as [->|H]; [left; reflexivity|right; exact H]|].
      split; [apply Qle_trans with x; assumption|].
      intros y [<-|Hy]; [exact Hle | apply Hall; exact Hy].
    + assert (Hxa : x <= a).
      { apply Qlt_le_weak, Qnot_le_lt. intros H.
        apply Qle_bool_iff in H. congruence. }
      split; [destruct Hin as [->|H]; [left; reflexivity|right; right; exact H]|].
      split; [exact Hle|].
      intros y [<-|Hy]; [apply Qle_trans with a; assumption | apply Hall; exact Hy].
Qed.

(** [Math.max] of no number is [-Infinity]; of some numbers it is one of
    them and none of them is above it. *)
Lemma Math_max_spec (xs : list Q) :
  match Math_max xs with
  | MinusInfinity => xs = []
  | Max m => In m xs /\ forall x, In x xs -> x <= m
  end.
Proof.
  unfold Math_max. destruct xs as [|x xs]; [reflexivity|].
  cbn [fold_left].
  destruct (Math_max_from xs x) as (m & Hm & Hin & Hle & Hall).
  rewrite Hm. split.
  - destruct Hin as [->|H]; [left; reflexivity | right; exact H].
  - intros y [<-|Hy]; [exact Hle | apply Hall; exact Hy].
Qed.

Lemma positive_sizes_In (levels : list OrderLevel.t) (q : Q) :
  In q (positive_sizes levels) <->
  exists level, In level levels
                /\ Js.or_zero (OrderLevel.size level) = q
                /\ Qle_bool q 0 = false.
Proof.
  unfold positive_sizes. rewrite filter_In, in_map_iff, negb_true_iff.
  split.
  - intros [(level & Hq & Hin) Hpos]. exists level. auto.
  - intros (level & Hin & Hq & Hpos). split; [exists level; auto | exact Hpos].
Qed.

Lemma not_le_zero (q : Q) : Qle_bool q 0 = false -> 0 < q.
Proof.
  intros H. apply Qnot_le_lt. intros Hle. apply Qle_bool_iff in Hle.
  congruence.
Qed.

(** What the view is made of when it shows the book. *)
Lemma render_Book_inv (st : State) mid bidRows askRows :
  render st = Book mid bidRows askRows ->
  exists ob bids asks,
    orderBook st = Some ob
    /\ OrderBook.bids ob = Some bids /\ OrderBook.asks ob = Some asks
    /\ bids <> [] /\ asks <> []
    /\ error st = EmptyString
    /\ bidRows = map (row (maxSize bids asks)) bids
    /\ askRows = map (row (maxSize bids asks)) asks.
Proof.
  unfold render. intros H.
  destruct (isLoading st && is_null (orderBook st)); [discriminate H|].
  destruct (error st) as [|c e] eqn:He; [|discriminate H]. cbn in H.
  destruct (orderBook st) as [ob|]; [|discriminate H].
  destruct (OrderBook.bids ob) as [bids|] eqn:Hb; [|discriminate H].
  destruct (OrderBook.asks ob) as [asks|] eqn:Ha; [|discriminate H].
  destruct bids as [|b bids]; [discriminate H|].
  destruct asks as [|a asks]; [discriminate H|].
  cbn in H. injection H as _ <- <-.
  exists ob, (b :: bids), (a :: asks).
  repeat split; solve [assumption | discriminate].
Qed.

Lemma level_width_of_level (bids asks : list OrderLevel.t)
  (level : OrderLevel.t) :
  In level (bids ++ asks) ->
  exists w,
    width (row (maxSize bids asks) level) = Some w
    /\ w <= 100
    /\ (0 <= size (row (maxSize bids asks) level) -> 0 <= w).
Proof.
  intros Hin. cbn [row width size]. unfold level_width.
  set (sz := Js.nullish_zero (OrderLevel.size level)).
  pose proof (Math_max_spec (positive_sizes bids ++ positive_sizes asks))
    as Hmax.
  unfold maxSize. destruct (Math_max _) as [|q].
  - exists 0. repeat split; [discriminate | intros _; apply Qle_refl].
  - destruct Hmax as [Hq Hall].
    destruct (Qle_bool q 0) eqn:Hq0; cbn [negb].
    + exists 0. repeat split; [discriminate | intros _; apply Qle_refl].
    + pose proof (not_le_zero q Hq0) as Hpos.
      unfold divide.
      assert (Hne : Qeq_bool q 0 = false).
      { destruct (Qeq_bool q 0) eqn:He; [|reflexivity].
        apply Qeq_bool_iff in He. rewrite He in Hpos.
        exfalso. apply (Qlt_irrefl 0). exact Hpos. }
      rewrite Hne. cbn [option_map].
      exists (sz / q * 100). split; [reflexivity|].
      assert (Hle : sz <= q).
      { destruct (Qle_bool sz 0) eqn:Hs0.
        - apply Qle_bool_iff in Hs0. apply Qle_trans with 0; [exact Hs0|].
          apply Qlt_le_weak. exact Hpos.
        - apply Hall. apply in_app_or in Hin.
          assert (Hsz : Js.or_zero (OrderLevel.size level) = sz).
          { unfold sz. destruct (OrderLevel.size level) as [x|]; cbn.
            - cbn in Hs0. destruct (Qeq_bool x 0) eqn:Hx; [|reflexivity].
              apply Qeq_bool_iff in Hx.
              assert (Hx0 : x <= 0) by (rewrite Hx; apply Qle_refl).
              apply Qle_bool_iff in Hx0. unfold sz in Hs0. cbn in Hs0.
              congruence.
            - reflexivity. }
          apply in_or_app.
          destruct Hin as [Hb|Ha]; [left|right];
            apply positive_sizes_In; exists level; auto. }
      split.
      * assert (H1 : sz / q <= 1).
        { apply Qle_shift_div_r; [exact Hpos | lra]. }
        lra.
      * intros Hnn.
        assert (H0 : 0 <= sz / q).
        { apply Qle_shift_div_l; [exact Hpos | lra]. }
        lra.
Qed.

(** The bars of the book never exceed the full width: every level that is
    drawn has a finite width of at most 100 per cent, and of at least 0
    when its size is not negative. *)
Theorem widths_within_bar :
  forall (st : State) (mid : string) (bidRows askRows : list Row)
         (r : Row),
    render st = Book mid bidRows askRows ->
    In r (bidRows ++ askRows) ->
    exists w, width r = Some w /\ w <= 100 /\ (0 <= size r -> 0 <= w).
Proof.
  intros st mid bidRows askRows r Hrender Hin.
  destruct (render_Book_inv st mid bidRows askRows Hrender)
    as (ob & bids & asks & _ & _ & _ & _ & _ & _ & -> & ->).
  rewrite <- map_app in Hin. apply in_map_iff in Hin.
  destruct Hin as (level & <- & Hlevel).
  apply level_width_of_level. exact Hlevel.
Qed.

Lemma widths_within_bar_witness :
  exists w,
    width (row (maxSize [OrderLevel.mk BID (Some 99) (Some 2);
                         OrderLevel.mk BID (Some 98) (Some 1)]
                        [OrderLevel.mk ASK (Some 101) (Some 4)])
               (OrderLevel.mk BID (Some 98) (Some 1))) = Some w
    /\ w <= 100
    /\ (0 <= size (row (maxSize [OrderLevel.mk BID (Some 99) (Some 2);
                                 OrderLevel.mk BID (Some 98) (Some 1)]
                                [OrderLevel.mk ASK (Some 101) (Some 4)])
                       (OrderLevel.mk BID (Some 98) (Some 1))) -> 0 <= w).
Proof.
  refine (widths_within_bar
            (mk (Some Samples.full_book) false EmptyString) _ _ _ _ eq_refl _).
  right. left. reflexivity.
Defined.

(** The largest order fills the bar: when some level of the book that is
    shown has a positive size, some level is drawn at exactly 100 per
    cent. *)
Theorem largest_level_full_width :
  forall (st : State) (mid : string) (bidRows askRows : list Row)
         (r : Row),
    render st = Book mid bidRows askRows ->
    In r (bidRows ++ askRows) ->
    0 < size r ->
    exists top w,
      In top (bidRows ++ askRows)
      /\ width top = Some w /\ w == 100 /\ size r <= size top.
Proof.
  intros st mid bidRows askRows r Hrender Hin Hpos.
  destruct (render_Book_inv st mid bidRows askRows Hrender)
    as (ob & bids & asks & _ & _ & _ & _ & _ & _ & -> & ->).
  rewrite <- map_app in Hin |- *. apply in_map_iff in Hin.
  destruct Hin as (level & <- & Hlevel). cbn [row size] in Hpos.
  set (sz := Js.nullish_zero (OrderLevel.size level)) in *.
  assert (Hsz : In sz (positive_sizes bids ++ positive_sizes asks)).
  { assert (Hs0 : Qle_bool sz 0 = false).
    { destruct (Qle_bool sz 0) eqn:H; [|reflexivity].
      apply Qle_bool_iff in H. exfalso.
      apply (Qlt_irrefl 0). apply Qlt_le_trans with sz; assumption. }
    assert (Hoz : Js.or_zero (OrderLevel.size level) = sz).
    { unfold sz. destruct (OrderLevel.size level) as [x|]; cbn; [|reflexivity].
      destruct (Qeq_bool x 0) eqn:Hx; [|reflexivity].
      apply Qeq_bool_iff in Hx.
      assert (Hx0 : x <= 0) by (rewrite Hx; apply Qle_refl).
      apply Qle_bool_iff in Hx0. unfold sz in Hs0. cbn in Hs0. congruence. }
    apply in_or_app. apply in_app_or in Hlevel.
    destruct Hlevel as [Hb|Ha]; [left|right];
      apply positive_sizes_In; exists level; auto. }
  pose proof (Math_max_spec (positive_sizes bids ++ positive_sizes asks))
    as Hmax.
  destruct (Math_max (positive_sizes bids ++ positive_sizes asks))
    as [|q] eqn:Hm.
  { rewrite Hmax in Hsz. contradiction. }
  destruct Hmax as [Hq Hall].
  apply in_app_or in Hq.
  assert (Htop : exists top, In top (bids ++ asks)
                   /\ Js.or_zero (OrderLevel.size top) = q
                   /\ Qle_bool q 0 = false).
  { destruct Hq as [Hq|Hq]; apply positive_sizes_In in Hq;
      destruct Hq as (top & Hin & Hoz & Hq0); exists top;
      (split; [apply in_or_app; auto | auto]). }
  destruct Htop as (top & Hintop & Hoz & Hq0).
  pose proof (not_le_zero q Hq0) as Hqpos.
  assert (Hnz : Js.nullish_zero (OrderLevel.size top) = q).
  { destruct (OrderLevel.size top) as [x|]; cbn in Hoz |- *.
    - destruct (Qeq_bool x 0); [|exact Hoz].
      subst q. exfalso. apply (Qlt_irrefl 0). exact Hqpos.
    - subst q. exfalso. apply (Qlt_irrefl 0). exact Hqpos. }
  assert (Hne : Qeq_bool q 0 = false).
  { destruct (Qeq_bool q 0) eqn:He; [|reflexivity].
    apply Qeq_bool_iff in He. rewrite He in Hqpos.
    exfalso. apply (Qlt_irrefl 0). exact Hqpos. }
  exists (row (maxSize bids asks) top), (q / q * 100).
  split; [apply in_map; exact Hintop|].
  split.
  { cbn [row width]. unfold maxSize. rewrite Hm, Hnz.
    unfold level_width, divide. rewrite Hq0, Hne. reflexivity. }
  split.
  { assert (Hqq : q / q == 1).
    { apply Qmult_inv_r. intros H0. rewrite H0 in Hqpos.
      apply (Qlt_irrefl 0). exact Hqpos. }
    rewrite Hqq. reflexivity. }
  cbn [row size]. rewrite Hnz. fold sz. apply Hall. exact Hsz.
Qed.

Lemma largest_level_full_width_witness :
  exists top w,
    In top (map (row (maxSize [OrderLevel.mk BID (Some 99) (Some 2);
                               OrderLevel.mk BID (Some 98) (Some 1)]
                              [OrderLevel.mk ASK (Some 101) (Some 4)]))
                [OrderLevel.mk BID (Some 99) (Some 2);
                 OrderLevel.mk BID (Some 98) (Some 1)]
            ++ map (row (maxSize [OrderLevel.mk BID (Some 99) (Some 2);
                                  OrderLevel.mk BID (Some 98) (Some 1)]
                                 [OrderLevel.mk ASK (Some 101) (Some 4)]))
                   [OrderLevel.mk ASK (Some 101) (Some 4)])
    /\ width top = Some w /\ w == 100
    /\ size (row (maxSize [OrderLevel.mk BID (Some 99) (Some 2);
                           OrderLevel.mk BID (Some 98) (Some 1)]
                          [OrderLevel.mk ASK (Some 101) (Some 4)])
                 (OrderLevel.mk BID (Some 98) (Some 1))) <= size top.
Proof.
  refine (largest_level_full_width
            (mk (Some Samples.full_book) false EmptyString) _ _ _ _
            eq_refl _ _).
  - right. left. reflexivity.
  - vm_compute. reflexivity.
Defined.

End OrderBookProperties.

(* ================================================================== *)
(** ** Further properties: polling *)
(* ================================================================== *)

Section PollingProperties.

Import Polling.

Lemma last_success_app {A : Type} (l1 l2 : list (Reply A)) :
  last_success (l1 ++ l2)
  = match last_success l2 with
    | Some x => Some x
    | None => last_success l1
    end.
Proof.
  induction l1 as [|r l1 IH]; cbn [app last_success].
  - destruct (last_success l2); reflexivity.
  - rewrite IH. destruct (last_success l2); reflexivity.
Qed.

Lemma received_app (l1 l2 : list Event) :
  received (l1 ++ l2) = received l1 ++ received l2.
Proof.
  induction l1 as [|e l1 IH]; [reflexivity|].
  destruct e; cbn [app received]; rewrite IH; reflexivity.
Qed.

Lemma fetchOrderBook_events (props : OrderBookView.Props)
  (reply : Reply OrderBook.t) (st : OrderBookView.State) :
  filter is_NetCall (snd (OrderBookView.fetchOrderBook props reply st))
  = [NetCall HttpGet (append "/orderbook/" (OrderBookView.symbol props)) None]
  /\ received (snd (OrderBookView.fetchOrderBook props reply st))
     = match reply with
       | inr data => if OrderBookView.onDataReceived props then [data] else []
       | inl _ => []
       end.
Proof.
  destruct reply as [err|data]; cbn; [split; reflexivity|].
  destruct (OrderBookView.onDataReceived props); split; reflexivity.
Qed.




(** The cards after a refresh that succeeded. *)
Example quickStats_after_success :
  Dashboard.quickStats (Some Samples.dashboard_stats)
  = {| Dashboard.openOrders := 2;
       Dashboard.openOrdersCaption := "Pending";
       Dashboard.portfolioValue := "2500.00";
       Dashboard.portfolioCaption := "Holdings" |}.
Proof. vm_compute. reflexivity. Qed.

End PollingProperties.

(* ================================================================== *)
(** ** Further properties: the effect of the order book *)
(* ================================================================== *)

Section OrderBookEffect.

Import OrderBookView Polling.

Lemma successes_app {A : Type} (l1 l2 : list (Reply A)) :
  successes (l1 ++ l2) = successes l1 ++ successes l2.
Proof.
  induction l1 as [|r l1 IH]; [reflexivity|].
  destruct r; cbn [app successes]; rewrite IH; reflexivity.
Qed.

Lemma remove_nth_length {A : Type} (l : list A) (n : nat) (x : A) :
  nth_error l n = Some x ->
  (List.length (firstn n l ++ skipn (S n) l) + 1 = List.length l)%nat.
Proof.
  intros Hn.
  assert (Hlt : (n < List.length l)%nat).
  { apply nth_error_Some. rewrite Hn. discriminate. }
  rewrite length_app, length_firstn, length_skipn. lia.
Qed.

(** One step: the request it sends, the snapshot it leaves, what it hands
    to the parent, and the requests left in flight. *)
Lemma step_observed (s : Step) (m : Mounted) :
  filter is_NetCall (snd (step s m)) = map request (called s m)
  /\ orderBook (view (fst (step s m)))
     = match last_success (map snd (arrived s m)) with
       | Some data => Some data
       | None => orderBook (view m)
       end
  /\ received (snd (step s m))
     = successes
         (map snd (filter (fun a => onDataReceived (fst a)) (arrived s m)))
  /\ (List.length (inflight (fst (step s m))) + List.length (arrived s m)
      = List.length (inflight m) + List.length (called s m))%nat.
Proof.
  destruct s as [props| |n reply]; cbn [step called arrived].
  - cbn. rewrite length_app. cbn. repeat split; lia.
  - destruct (timer m) as [props|]; cbn; [rewrite length_app; cbn|];
      repeat split; lia.
  - destruct (nth_error (inflight m) n) as [props|] eqn:Hn.
    + pose proof (remove_nth_length _ _ _ Hn) as Hlen.
      destruct reply as [err|data], (onDataReceived props) eqn:Hcb;
        cbn -[skipn firstn]; rewrite ?Hcb; cbn -[skipn firstn];
        repeat split; lia.
    + cbn. repeat split; lia.
Qed.

(** The order book under overlapping requests.  Whatever the order in
    which the effect runs, the timer fires and the replies arrive: every
    call sends one GET for the symbol of the closure that makes it; the
    snapshot held is the body of the last reply that arrived with success,
    whichever request it answers, or the one held before if none did, so a
    failure never replaces it; the parent is handed the successful replies
    of the closures that have its callback, in the order of their arrival;
    every request is settled at most once; and a reply that succeeds leaves
    the error slot as it finds it, only the start of a call clears it. *)
Theorem order_book_overlapping_requests :
  forall (trace : list Step) (m : Mounted),
    filter is_NetCall (snd (run trace m)) = map request (calls trace m)
    /\ orderBook (view (fst (run trace m)))
       = match last_success (map snd (arrivals trace m)) with
         | Some data => Some data
         | None => orderBook (view m)
         end
    /\ received (snd (run trace m))
       = successes
           (map snd
              (filter (fun a => onDataReceived (fst a)) (arrivals trace m)))
    /\ (List.length (inflight (fst (run trace m)))
        + List.length (arrivals trace m)
        = List.length (inflight m) + List.length (calls trace m))%nat
    /\ (forall n data,
          error (view (fst (step (Arrive n (inr data)) (fst (run trace m)))))
          = error (view (fst (run trace m))))
    /\ (forall s, called s (fst (run trace m)) <> [] ->
          error (view (fst (step s (fst (run trace m))))) = EmptyString).
Proof.
  intros trace m.
  assert (Hmain :
    filter is_NetCall (snd (run trace m)) = map request (calls trace m)
    /\ orderBook (view (fst (run trace m)))
       = match last_success (map snd (arrivals trace m)) with
         | Some data => Some data
         | None => orderBook (view m)
         end
    /\ received (snd (run trace m))
       = successes
           (map snd
              (filter (fun a => onDataReceived (fst a)) (arrivals trace m)))
    /\ (List.length (inflight (fst (run trace m)))
        + List.length (arrivals trace m)
        = List.length (inflight m) + List.length (calls trace m))%nat).
  { revert m. induction trace as [|s rest IH]; intros m.
    - cbn. repeat split; lia.
    - cbn [run calls arrivals].
      destruct (step_observed s m) as (Hc & Hob & Hrec & Hlen).
      destruct (IH (fst (step s m))) as (IHc & IHob & IHrec & IHlen).
      destruct (step s m) as [m1 e1]. cbn [fst snd] in *.
      destruct (run rest m1) as [m2 e2]. cbn [fst snd] in *.
      split; [rewrite filter_app, map_app, Hc, IHc; reflexivity|].
      split.
      { rewrite IHob, map_app, last_success_app.
        destruct (last_success (map snd (arrivals rest m1)));
          [reflexivity | exact Hob]. }
      split.
      { rewrite received_app, filter_app, map_app, successes_app, Hrec, IHrec.
        reflexivity. }
      rewrite !length_app. lia. }
  destruct Hmain as (H1 & H2 & H3 & H4).
  split; [exact H1|]. split; [exact H2|]. split; [exact H3|].
  split; [exact H4|]. split.
  - intros n data. cbn [step].
    destruct (nth_error (inflight (fst (run trace m))) n); reflexivity.
  - intros s Hs. destruct s as [props| |n reply]; cbn [step called] in *.
    + reflexivity.
    + destruct (timer (fst (run trace m))); [reflexivity | congruence].
    + congruence.
Qed.

Lemma order_book_overlapping_requests_witness :
  error
    (view
       (fst (step Tick
               (fst (run [Effect Samples.btc_book_props;
                          Arrive 0 (inl Samples.network_error)]
                         (mounted init None []))))))
  = EmptyString.
Proof.
  refine (proj2 (proj2 (proj2 (proj2 (proj2
            (order_book_overlapping_requests
               [Effect Samples.btc_book_props;
                Arrive 0 (inl Samples.network_error)]
               (mounted init None [])))))) Tick _).
  vm_compute. discriminate.
Defined.

(** Two requests overlap, as when the effect runs twice at mount; the
    first fails and the second succeeds.  The component holds the fresh
    snapshot and has handed it to the parent, and still shows the error
    until the next call. *)
Example error_outlives_fresh_snapshot :
  let props := Samples.btc_book_props in
  let out :=
    run [Effect props; Effect props;
         Arrive 0 (inl Samples.network_error);
         Arrive 0 (inr Samples.full_book)]
        (mounted init None []) in
  orderBook (view (fst out)) = Some Samples.full_book
  /\ received (snd out) = [Samples.full_book]
  /\ inflight (fst out) = []
  /\ render (view (fst out)) = ErrorView "Failed to fetch order book"
  /\ List.length (filter is_NetCall (snd out)) = 2%nat.
Proof. vm_compute. repeat split; reflexivity. Qed.

(** The symbol changes while the request for the old one is in flight,
    and the reply for the old symbol arrives last: the component, now
    mounted for ETH-USD, holds the book of BTC-USD. *)
Example late_reply_of_old_symbol :
  let btc := Samples.btc_book_props in
  let eth := Samples.eth_book_props in
  let out :=
    run [Effect btc; Effect eth;
         Arrive 1 (inr Samples.eth_book);
         Arrive 0 (inr Samples.full_book)]
        (mounted init None []) in
  timer (fst out) = Some eth
  /\ orderBook (view (fst out)) = Some Samples.full_book
  /\ received (snd out) = [Samples.eth_book; Samples.full_book].
Proof. vm_compute. repeat split; reflexivity. Qed.

End OrderBookEffect.


(* ================================================================== *)
(** ** Further properties: the analytics page *)
(* ================================================================== *)

Section SymbolProperties.

Import Analytics.

Lemma existsb_eqb_In (x : string) (seen : list string) :
  existsb (String.eqb x) seen = true <-> In x seen.
Proof.
  rewrite existsb_exists. split.
  - intros (y & Hin & Heq). apply String.eqb_eq in Heq. subst y. exact Hin.
  - intros Hin. exists x. split; [exact Hin | apply String.eqb_refl].
Qed.

Lemma Set_from_acc (xs : list string) :
  forall seen,
    NoDup seen ->
    let out :=
      fold_left
        (fun seen x =>
           if existsb (String.eqb x) seen then seen else seen ++ [x])
        xs seen in
    NoDup out /\ forall x, In x out <-> In x seen \/ In x xs.
Proof.
  induction xs as [|a xs IH]; intros seen Hnd; cbn [fold_left].
  - split; [exact Hnd | intros x; cbn; tauto].
  - destruct (existsb (String.eqb a) seen) eqn:Ha.
    + apply existsb_eqb_In in Ha.
      destruct (IH seen Hnd) as [Hn Hin]. split; [exact Hn|].
      intros x. rewrite Hin. cbn. split; [tauto|].
      intros [H|[<-|H]]; tauto.
    + assert (Hna : ~ In a seen).
      { intros H. apply existsb_eqb_In in H. congruence. }
      assert (Hnd' : NoDup (seen ++ [a])).
      { apply NoDup_app; [exact Hnd | constructor; [intros []|constructor] |].
        intros x Hx [<-|[]]. exact (Hna Hx). }
      destruct (IH (seen ++ [a]) Hnd') as [Hn Hin]. split; [exact Hn|].
      intros x. rewrite Hin, in_app_iff. cbn. tauto.
Qed.

Lemma symbols_spec (H : list AnalyticsTrade.t) :
  NoDup (symbols H)
  /\ forall S, In S (symbols H) <->
               exists t, In t H /\ AnalyticsTrade.symbol t = S.
Proof.
  unfold symbols, Set_from.
  destruct (Set_from_acc (map AnalyticsTrade.symbol H) [] (NoDup_nil _))
    as [Hnd Hin].
  cbn zeta in Hnd, Hin.
  split; [exact Hnd|].
  intros S. rewrite Hin, in_map_iff. cbn. split.
  - intros [[]|(t & Ht & Hi)]. exists t. auto.
  - intros (t & Hi & Ht). right. exists t. auto.
Qed.

(** The buttons of the symbol filter: one for every symbol that occurs in
    the history, none twice and none for a symbol that does not occur;
    there is none at all exactly for an empty history, and the filter is
    drawn only when the history holds two records of different symbols. *)
Theorem symbols_distinct :
  forall (H : list AnalyticsTrade.t),
    NoDup (symbols H)
    /\ (forall S, In S (symbols H) <->
                  exists t, In t H /\ AnalyticsTrade.symbol t = S)
    /\ (symbols H = [] <-> H = [])
    /\ (forall isLoading sel filterShown stats,
          body isLoading sel H = Content filterShown stats ->
          filterShown = true ->
          exists t1 t2,
            In t1 H /\ In t2 H
            /\ AnalyticsTrade.symbol t1 <> AnalyticsTrade.symbol t2).
Proof.
  intros H. destruct (symbols_spec H) as [Hnd Hin].
  split; [exact Hnd|]. split; [exact Hin|]. split.
  - split.
    + intros Hnil. destruct H as [|t H]; [reflexivity|].
      exfalso.
      assert (Ht : In (AnalyticsTrade.symbol t) (symbols (t :: H))).
      { apply Hin. exists t. split; [left|]; reflexivity. }
      rewrite Hnil in Ht. exact Ht.
    + intros ->. reflexivity.
  - intros isLoading sel filterShown stats Hbody Hshown.
    unfold body in Hbody.
    destruct (isLoading && (List.length H =? 0)%nat); [discriminate|].
    destruct (List.length H =? 0)%nat; [discriminate|].
    injection Hbody as Hf _. rewrite Hshown in Hf.
    apply Nat.ltb_lt in Hf.
    destruct (symbols H) as [|S1 [|S2 rest]] eqn:Hs; cbn in Hf; try lia.
    assert (H1 : In S1 (S1 :: S2 :: rest)) by (left; reflexivity).
    assert (H2 : In S2 (S1 :: S2 :: rest)) by (right; left; reflexivity).
    apply Hin in H1. apply Hin in H2.
    destruct H1 as (t1 & Ht1 & E1). destruct H2 as (t2 & Ht2 & E2).
    exists t1, t2. split; [exact Ht1|]. split; [exact Ht2|].
    rewrite E1, E2. intros ->.
    inversion Hnd as [|? ? Hnot _]. apply Hnot. left. reflexivity.
Qed.

Lemma symbols_distinct_witness :
  exists t1 t2,
    In t1 Samples.two_fills_one_pending
    /\ In t2 Samples.two_fills_one_pending
    /\ AnalyticsTrade.symbol t1 <> AnalyticsTrade.symbol t2.
Proof.
  refine (proj2 (proj2 (proj2
            (symbols_distinct Samples.two_fills_one_pending)))
            false None true
            (stats_local None Samples.two_fills_one_pending) _ eq_refl).
  vm_compute. reflexivity.
Defined.

Lemma list_sum_cons (x : nat) (l : list nat) :
  list_sum (x :: l) = (x + list_sum l)%nat.
Proof. reflexivity. Qed.

Lemma list_sum_map_add {A : Type} (f g : A -> nat) (l : list A) :
  list_sum (map (fun x => (f x + g x)%nat) l)
  = (list_sum (map f l) + list_sum (map g l))%nat.
Proof.
  induction l as [|a l IH]; [reflexivity|].
  change (f a + g a + list_sum (map (fun x => f x + g x) l)
          = f a + list_sum (map f l) + (g a + list_sum (map g l)))%nat.
  rewrite IH. lia.
Qed.

Lemma list_sum_indicator (a : string) (ks : list string) :
  NoDup ks ->
  list_sum (map (fun k => if String.eqb a k then 1%nat else 0%nat) ks)
  = if existsb (String.eqb a) ks then 1%nat else 0%nat.
Proof.
  induction ks as [|k ks IH]; intros Hnd; [reflexivity|].
  inversion Hnd as [|? ? Hk Hks]; subst.
  cbn [map existsb]. rewrite list_sum_cons, (IH Hks).
  destruct (String.eqb a k) eqn:Hak; cbn [orb]; [|reflexivity].
  apply String.eqb_eq in Hak. subst k.
  destruct (existsb (String.eqb a) ks) eqn:He; [|reflexivity].
  apply existsb_eqb_In in He. contradiction.
Qed.

(** Records counted symbol by symbol add up to the records counted at
    once, when the symbols are distinct and none is missing. *)
Lemma count_by_symbol (ks : list string) (l : list AnalyticsTrade.t) :
  NoDup ks ->
  (forall t, In t l -> In (AnalyticsTrade.symbol t) ks) ->
  list_sum
    (map (fun k =>
            List.length
              (filter (fun t => String.eqb (AnalyticsTrade.symbol t) k) l))
         ks)
  = List.length l.
Proof.
  intros Hnd. induction l as [|t l IH]; intros Hin.
  - clear Hin. induction ks as [|k ks IHk]; [reflexivity|].
    cbn [map filter List.length]. rewrite list_sum_cons.
    apply IHk. inversion Hnd; assumption.
  - rewrite (map_ext
               (fun k =>
                  List.length
                    (filter (fun t0 => String.eqb (AnalyticsTrade.symbol t0) k)
                            (t :: l)))
               (fun k =>
                  ((if String.eqb (AnalyticsTrade.symbol t) k
                    then 1 else 0)
                   + List.length
                       (filter
                          (fun t0 => String.eqb (AnalyticsTrade.symbol t0) k)
                          l))%nat)).
    2:{ intros k. cbn [filter].
        destruct (String.eqb (AnalyticsTrade.symbol t) k); reflexivity. }
    rewrite (list_sum_map_add
               (fun k => if String.eqb (AnalyticsTrade.symbol t) k
                         then 1%nat else 0%nat)
               (fun k =>
                  List.length
                    (filter (fun t0 => String.eqb (AnalyticsTrade.symbol t0) k)
                            l))).
    rewrite (list_sum_indicator _ ks Hnd).
    rewrite IH by (intros t0 H0; apply Hin; right; exact H0).
    assert (He : existsb (String.eqb (AnalyticsTrade.symbol t)) ks = true).
    { apply existsb_eqb_In. apply Hin. left. reflexivity. }
    rewrite He. reflexivity.
Qed.

Lemma filteredTrades_nonempty_symbol (S : string)
  (H : list AnalyticsTrade.t) :
  S <> EmptyString ->
  filteredTrades (Some S) H
  = filter (fun t => String.eqb (AnalyticsTrade.symbol t) S) H.
Proof.
  intros HS. unfold filteredTrades.
  destruct S; [congruence | reflexivity].
Qed.

(** The views by symbol partition the history.  When no record carries
    the empty symbol, the trades, the buys, the sells and the filled
    records counted under each button of the filter add up to the
    figures of the view of all symbols, and the view behind every button
    holds at least one trade. *)
Theorem symbol_views_partition :
  forall (H : list AnalyticsTrade.t),
    (forall t, In t H -> AnalyticsTrade.symbol t <> EmptyString) ->
    list_sum (map (fun S => totalTrades (stats_local (Some S) H)) (symbols H))
    = totalTrades (stats_local None H)
    /\ list_sum (map (fun S => buyTrades (stats_local (Some S) H)) (symbols H))
       = buyTrades (stats_local None H)
    /\ list_sum (map (fun S => sellTrades (stats_local (Some S) H)) (symbols H))
       = sellTrades (stats_local None H)
    /\ list_sum (map (fun S => List.length (filledTrades (Some S) H))
                     (symbols H))
       = List.length (filledTrades None H)
    /\ (forall S, In S (symbols H) ->
                  (0 < totalTrades (stats_local (Some S) H))%nat).
Proof.
  intros H Hne.
  destruct (symbols_spec H) as (Hnd & Hin).
  assert (Hks : forall S, In S (symbols H) -> S <> EmptyString).
  { intros S HS. apply Hin in HS. destruct HS as (t & Ht & <-).
    apply Hne. exact Ht. }
  assert (Hcount : forall p : AnalyticsTrade.t -> bool,
    list_sum
      (map (fun S => List.length (filter p (filteredTrades (Some S) H)))
           (symbols H))
    = List.length (filter p H)).
  { intros p.
    rewrite (map_ext_in _
               (fun S =>
                  List.length
                    (filter (fun t => String.eqb (AnalyticsTrade.symbol t) S)
                            (filter p H)))).
    2:{ intros S HS. rewrite (filteredTrades_nonempty_symbol S H (Hks S HS)).
        rewrite filter_swap. reflexivity. }
    apply count_by_symbol; [exact Hnd|].
    intros t Ht. apply filter_In in Ht. apply Hin. exists t. tauto. }
  split; [|split; [|split; [|split]]].
  - unfold stats_local; cbn [totalTrades].
    change (filteredTrades None H) with H.
    rewrite (map_ext_in _
               (fun S =>
                  List.length
                    (filter (fun t => String.eqb (AnalyticsTrade.symbol t) S)
                            H))).
    2:{ intros S HS. rewrite (filteredTrades_nonempty_symbol S H (Hks S HS)).
        reflexivity. }
    apply count_by_symbol; [exact Hnd|].
    intros t Ht. apply Hin. exists t. tauto.
  - apply (Hcount (fun t => String.eqb (AnalyticsTrade.side t) "BUY")).
  - apply (Hcount (fun t => String.eqb (AnalyticsTrade.side t) "SELL")).
  - apply (Hcount is_filled).
  - intros S HS. unfold stats_local; cbn [totalTrades].
    rewrite (filteredTrades_nonempty_symbol S H (Hks S HS)).
    apply Hin in HS. destruct HS as (t & Ht & Hsym).
    assert (Hf : In t (filter (fun t0 =>
                   String.eqb (AnalyticsTrade.symbol t0) S) H)).
    { apply filter_In. split; [exact Ht|]. apply String.eqb_eq. exact Hsym. }
    destruct (filter _ H); [contradiction | cbn; lia].
Qed.

Lemma symbol_views_partition_witness :
  list_sum (map (fun S => totalTrades
                            (stats_local (Some S)
                               Samples.two_fills_one_pending))
                (symbols Samples.two_fills_one_pending))
  = totalTrades (stats_local None Samples.two_fills_one_pending).
Proof.
  refine (proj1 (symbol_views_partition Samples.two_fills_one_pending _)).
  intros t [<-|[<-|[<-|[]]]]; discriminate.
Defined.

(** The symbols of the sample history, in the order of first occurrence. *)
Example symbols_sample :
  symbols (Samples.two_fills_one_pending ++ Samples.with_empty_symbol)
  = ["BTC-USD"; "ETH-USD"; ""]%string.
Proof. vm_compute. reflexivity. Qed.

End SymbolProperties.

Section StatisticsProperties.

Import Analytics.

Local Open Scope Q_scope.

Lemma filter_disjoint_length {A : Type} (p q : A -> bool) (l : list A) :
  (forall x, p x = true -> q x = false) ->
  (List.length (filter p l) + List.length (filter q l) <= List.length l)%nat.
Proof.
  intros Hpq. induction l as [|a l IH]; [cbn; lia|].
  cbn [filter]. destruct (p a) eqn:Hp.
  - rewrite (Hpq a Hp). cbn [List.length]. lia.
  - destruct (q a); cbn [List.length]; lia.
Qed.

Lemma filteredTrades_single (sel : option string) (p : AnalyticsTrade.t) :
  filteredTrades sel [p] = [p] \/ filteredTrades sel [p] = [].
Proof.
  unfold filteredTrades. destruct sel as [S|]; [|left; reflexivity].
  destruct (Js.truthy S); [|left; reflexivity].
  cbn. destruct (String.eqb (AnalyticsTrade.symbol p) S); [left|right];
    reflexivity.
Qed.

(** A pending order counts as a trade and as a buy or a sell, and as
    nothing else.  Appending a PENDING record to the history adds one to
    the trades of every selection it belongs to, and one to the buys when
    its side is BUY or to the sells when its side is SELL, while the
    executed quantity and the average slippage stay what they were; and the
    buys and the sells together never outnumber the trades. *)
Theorem pending_order_counts :
  forall (sel : option string) (H : list AnalyticsTrade.t)
         (p : AnalyticsTrade.t),
    AnalyticsTrade.status p = "PENDING"%string ->
    let before := stats_local sel H in
    let after := stats_local sel (H ++ [p]) in
    let selected := List.length (filteredTrades sel [p]) in
    totalTrades after = (totalTrades before + selected)%nat
    /\ (selected <= 1)%nat
    /\ (AnalyticsTrade.side p = "BUY"%string ->
        buyTrades after = (buyTrades before + selected)%nat
        /\ sellTrades after = sellTrades before)
    /\ (AnalyticsTrade.side p = "SELL"%string ->
        sellTrades after = (sellTrades before + selected)%nat
        /\ buyTrades after = buyTrades before)
    /\ totalQuantity after = totalQuantity before
    /\ avgSlippage after = avgSlippage before
    /\ (buyTrades after + sellTrades after <= totalTrades after)%nat.
Proof.
  intros sel H p Hp before after selected.
  pose proof (pending_not_filled p Hp) as Hnf.
  unfold before, after, selected, stats_local.
  cbn [totalTrades buyTrades sellTrades totalQuantity avgSlippage].
  assert (Hsides :
    (List.length
       (filter (fun t => String.eqb (AnalyticsTrade.side t) "BUY")
               (filteredTrades sel (H ++ [p])))
     + List.length
         (filter (fun t => String.eqb (AnalyticsTrade.side t) "SELL")
                 (filteredTrades sel (H ++ [p])))
     <= List.length (filteredTrades sel (H ++ [p])))%nat).
  { apply filter_disjoint_length.
    intros t Ht. apply String.eqb_eq in Ht. rewrite Ht. reflexivity. }
  revert Hsides.
  rewrite filledTrades_app, (filledTrades_unfilled sel p Hnf), app_nil_r.
  rewrite filteredTrades_app, !filter_app, !length_app.
  intros Hsides.
  split; [reflexivity|].
  split; [destruct (filteredTrades_single sel p) as [->| ->]; cbn; lia|].
  split.
  { intros Hside.
    destruct (filteredTrades_single sel p) as [->| ->]; cbn [filter];
      rewrite ?Hside; cbn; split; lia. }
  split.
  { intros Hside.
    destruct (filteredTrades_single sel p) as [->| ->]; cbn [filter];
      rewrite ?Hside; cbn; split; lia. }
  split; [reflexivity|]. split; [reflexivity|]. exact Hsides.
Qed.

Lemma pending_order_counts_witness :
  totalTrades
    (stats_local None
       (firstn 2 Samples.two_fills_one_pending
          ++ [Samples.pending 3 "ETH-USD" "BUY" "2024-01-03T10:00:00Z"]))
  = (totalTrades (stats_local None (firstn 2 Samples.two_fills_one_pending))
     + 1)%nat
  /\ buyTrades
       (stats_local None
          (firstn 2 Samples.two_fills_one_pending
             ++ [Samples.pending 3 "ETH-USD" "BUY" "2024-01-03T10:00:00Z"]))
     = (buyTrades (stats_local None (firstn 2 Samples.two_fills_one_pending))
        + 1)%nat.
Proof.
  pose proof (pending_order_counts None
                (firstn 2 Samples.two_fills_one_pending)
                (Samples.pending 3 "ETH-USD" "BUY" "2024-01-03T10:00:00Z")
                eq_refl) as H.
  split.
  - exact (proj1 H).
  - exact (proj1 (proj1 (proj2 (proj2 H)) eq_refl)).
Defined.

(** [toFixed] depends on the number, not on the fraction that denotes
    it. *)
Lemma toFixed_Qeq (f : nat) (x y : Q) :
  x == y -> Js.toFixed f x = Js.toFixed f y.
Proof.
  intros Hxy. unfold Js.toFixed, Js.toFixed_scaled.
  assert (Hfloor :
    Qfloor (Qabs x * inject_Z (Js.pow10 f) + (1 # 2))
    = Qfloor (Qabs y * inject_Z (Js.pow10 f) + (1 # 2))).
  { apply Qfloor_comp. rewrite Hxy. reflexivity. }
  assert (Hsign : Qle_bool 0 x = Qle_bool 0 y).
  { destruct (Qle_bool 0 x) eqn:Hx, (Qle_bool 0 y) eqn:Hy; try reflexivity.
    - apply Qle_bool_iff in Hx. rewrite Hxy in Hx.
      apply Qle_bool_iff in Hx. congruence.
    - apply Qle_bool_iff in Hy. rewrite <- Hxy in Hy.
      apply Qle_bool_iff in Hy. congruence. }
  rewrite Hfloor, Hsign. reflexivity.
Qed.

Lemma with_point_not_zero (s1 s2 : string) :
  append EmptyString (append s1 (append "." s2)) <> "0"%string.
Proof.
  cbn [append]. destruct s1 as [|c [|d s1]]; cbn [append]; discriminate.
Qed.

(** The two ends of the fill rate.  Of a selection that is not empty the
    rate reads ["100.0"] when every record is FILLED and ["0.0"] when none
    is; only the empty selection reads ["0"]. *)
Theorem fillRate_extremes :
  forall (sel : option string) (H : list AnalyticsTrade.t),
    filteredTrades sel H <> [] ->
    (filledTrades sel H = filteredTrades sel H ->
     fillRate (stats_local sel H) = "100.0"%string)
    /\ (filledTrades sel H = [] ->
        fillRate (stats_local sel H) = "0.0"%string)
    /\ fillRate (stats_local sel H) <> "0"%string.
Proof.
  intros sel H Hne.
  assert (Hpos : (0 < List.length (filteredTrades sel H))%nat).
  { destruct (filteredTrades sel H); [congruence | cbn; lia]. }
  pose proof (len_pos _ Hpos) as Hlen.
  assert (Hrate : fillRate (stats_local sel H)
                  = Js.toFixed 1 (fillRatePercent sel H)).
  { unfold stats_local; cbn [fillRate].
    apply Nat.ltb_lt in Hpos. rewrite Hpos. reflexivity. }
  split; [|split].
  - intros Hall. rewrite Hrate.
    rewrite (toFixed_Qeq 1 (fillRatePercent sel H) 100); [reflexivity|].
    unfold fillRatePercent. rewrite Hall.
    assert (Hq : len (filteredTrades sel H) / len (filteredTrades sel H) == 1).
    { apply Qmult_inv_r. intros H0. rewrite H0 in Hlen.
      exact (Qlt_irrefl 0 Hlen). }
    rewrite (round64_Qeq _ 1 Hq), round64_one.
    rewrite (round64_Qeq (1 * 100) 100) by reflexivity.
    rewrite round64_hundred. reflexivity.
  - intros Hnone. rewrite Hrate.
    rewrite (toFixed_Qeq 1 (fillRatePercent sel H) 0); [reflexivity|].
    unfold fillRatePercent. rewrite Hnone.
    assert (Hq : len [] / len (filteredTrades sel H) == 0).
    { unfold len at 1. cbn [List.length Z.of_nat].
      unfold Qdiv. change (inject_Z 0) with 0. ring. }
    rewrite (round64_Qeq _ 0 Hq), (round64_zero 0) by reflexivity.
    rewrite (round64_Qeq (0 * 100) 0) by reflexivity.
    rewrite (round64_zero 0) by reflexivity. reflexivity.
  - rewrite Hrate. unfold Js.toFixed.
    destruct (Qle_bool 0 (fillRatePercent sel H)); [|discriminate].
    apply with_point_not_zero.
Qed.

Lemma fillRate_extremes_witness :
  fillRate (stats_local None (firstn 2 Samples.two_fills_one_pending))
  = "100.0"%string
  /\ fillRate
       (stats_local None
          [Samples.pending 3 "ETH-USD" "BUY" "2024-01-03T10:00:00Z"])
     = "0.0"%string.
Proof.
  split.
  - refine (proj1 (fillRate_extremes None
                     (firstn 2 Samples.two_fills_one_pending) _) eq_refl).
    discriminate.
  - refine (proj1 (proj2 (fillRate_extremes None
                     [Samples.pending 3 "ETH-USD" "BUY"
                        "2024-01-03T10:00:00Z"] _)) eq_refl).
    discriminate.
Defined.

End StatisticsProperties.
